(** * nextjs-dashboard: invoice actions and the session authorizer

  A shallow embedding of [app/lib/actions.ts] and [auth.config.ts].

  The server actions are modelled as functions over an explicit world
  (the invoices table, the clock, the log of cache invalidations); the
  collaborators they call ([zod], [Number], [Date], the SQL driver,
  [signIn]) are modelled by what the calls made here observe. *)

From Stdlib Require Import ZArith Bool List Ascii String Lia.
From Stdlib Require Import Floats.SpecFloat.
From stdpp Require Import base option list strings pretty gmap.

Local Open Scope string_scope.

(* ===================================================================== *)
(** * JavaScript numbers: IEEE 754 binary64 *)
(* ===================================================================== *)

Module JsNum.

Local Open Scope Z_scope.

(** binary64: 53 bits of precision, infinities at exponent 1024. *)
Definition prec : Z := 53.
Definition emax : Z := 1024.

Abbreviation number := spec_float.

Definition NaN : number := S754_nan.
Definition pos_zero : number := S754_zero false.

(** The binary64 nearest (ties to even) to the integer [m * 2^e]. *)
Definition of_Z2 (m e : Z) : number := binary_normalize prec emax m e false.
Definition of_Z (m : Z) : number := of_Z2 m 0.

(** The binary64 nearest (ties to even) to the rational [n / d], for
    positive [n] and [d]. *)
Definition of_ratio (neg : bool) (n d : positive) : number :=
  let '(mz, ez, lz) := SFdiv_core_binary prec emax (Zpos n) 0 (Zpos d) 0 in
  binary_round_aux prec emax neg mz ez lz.

(** The binary64 nearest to [m * 10^e], the "mathematical value" of a
    decimal literal, with the sign kept on a zero. *)
Definition of_decimal (neg : bool) (m : N) (e : Z) : number :=
  match m with
  | N0 => S754_zero neg
  | Npos p =>
      match e with
      | Zneg k => of_ratio neg p (Pos.pow 10 k)
      | _ => binary_round prec emax neg (p * Z.to_pos (10 ^ e)) 0
      end
  end.

(** [x * y], [x <= y], [x < y], [x === y] on numbers. *)
Definition mul (x y : number) : number := SFmul prec emax x y.
Definition leb (x y : number) : bool := SFleb x y.
Definition ltb (x y : number) : bool := SFltb x y.
Definition eqb (x y : number) : bool := SFeqb x y.

Definition is_nan (x : number) : bool :=
  match x with S754_nan => true | _ => false end.

(** [Number.isInteger]: finite with no fractional part. *)
Definition is_integer (x : number) : bool :=
  match x with
  | S754_zero _ => true
  | S754_finite _ m e =>
      match e with
      | Zneg k => Z.eqb (Z.land (Zpos m) (Z.ones (Zpos k))) 0
      | _ => true
      end
  | _ => false
  end.

End JsNum.

(* ===================================================================== *)
(** * JavaScript values, strings and [Number(...)] *)
(* ===================================================================== *)

Module Js.

Import JsNum.

(** The values that reach this code: what [FormData.get] hands out (a
    string, a [File], or [null] for a missing entry), what an object lookup
    gives for a missing key ([undefined]) and numbers. Strings are held
    in UTF-8: a character up to U+007F is one byte, any other is a
    sequence of two to four bytes. *)
Inductive value : Type :=
| Undefined
| Null
| Str (s : string)
| Num (n : number)
| File (name : string).

(** Errors that are thrown. [redirect] of [next/navigation] works by
    throwing; [AuthError] is the class of [next-auth]. *)
Inductive error : Type :=
| Error (message : string)
| AuthError (type : string)
| NextRedirect (url : string).

(** How a call ends. *)
Inductive completion (A : Type) : Type :=
| Returned (a : A)
| Thrown (e : error).
Arguments Returned {A} a.
Arguments Thrown {A} e.

(** ** Strings *)

(** [s.startsWith(p)] *)
Definition startsWith (s p : string) : bool := String.prefix p s.

(** [s.split(sep)] for a non-empty [sep]; [skip] counts the characters of
    a separator just matched that are still to be dropped. *)
Fixpoint split_go (sep : string) (skip : nat) (s : string) : list string :=
  match s with
  | EmptyString => [EmptyString]
  | String c s' =>
      match skip with
      | S k => split_go sep k s'
      | O =>
          if String.prefix sep s
          then EmptyString :: split_go sep (String.length sep - 1) s'
          else match split_go sep 0 s' with
               | p :: ps => String c p :: ps
               | [] => [String c EmptyString]
               end
      end
  end.

(** With the empty separator, [split] cuts an ASCII string between all
    its characters. *)
Definition split (s sep : string) : list string :=
  match sep with
  | EmptyString => (fun c => String c EmptyString) <$> list_ascii_of_string s
  | _ => split_go sep 0 s
  end.

(** ** [StringToNumber] (ECMAScript 7.1.4.1.1) *)

(** The number of bytes of the [StrWhiteSpaceChar] that [s] starts with,
    0 if it starts with none. These are the white space characters TAB,
    VT, FF, SP, NBSP (U+00A0), ZWNBSP (U+FEFF) and the other space
    separators (U+1680, U+2000 to U+200A, U+202F, U+205F, U+3000), and
    the line terminators LF, CR, LS (U+2028) and PS (U+2029). *)
Definition str_whitespace_length (s : string) : nat :=
  match s with
  | EmptyString => 0
  | String c r =>
      let b := N_of_ascii c in
      if ((9 <=? b) && (b <=? 13) || (b =? 32))%N then 1
      else
        match r with
        | String c1 r1 =>
            let b1 := N_of_ascii c1 in
            if ((b =? 194) && (b1 =? 160))%N then 2
            else
              match r1 with
              | String c2 _ =>
                  let b2 := N_of_ascii c2 in
                  if ((b =? 225) && (b1 =? 154) && (b2 =? 128)
                      || (b =? 226) && (b1 =? 128)
                         && ((128 <=? b2) && (b2 <=? 138)
                             || (b2 =? 168) || (b2 =? 169) || (b2 =? 175))
                      || (b =? 226) && (b1 =? 129) && (b2 =? 159)
                      || (b =? 227) && (b1 =? 128) && (b2 =? 128)
                      || (b =? 239) && (b1 =? 187) && (b2 =? 191))%N
                  then 3
                  else 0
              | EmptyString => 0
              end
        | EmptyString => 0
        end
  end.

(** Drops the white space [s] starts with; [skip] counts the bytes of a
    white space character just found that are still to be dropped. *)
Fixpoint trim_start_go (skip : nat) (s : string) : string :=
  match s with
  | EmptyString => EmptyString
  | String _ s' =>
      match skip with
      | S k => trim_start_go k s'
      | O =>
          match str_whitespace_length s with
          | O => s
          | S k => trim_start_go k s'
          end
      end
  end.

Definition trim_start (s : string) : string := trim_start_go 0 s.

(** [s] is white space from end to end. *)
Fixpoint all_whitespace_go (skip : nat) (s : string) : bool :=
  match s with
  | EmptyString => true
  | String _ s' =>
      match skip with
      | S k => all_whitespace_go k s'
      | O =>
          match str_whitespace_length s with
          | O => false
          | S k => all_whitespace_go k s'
          end
      end
  end.

(** Drops the white space [s] ends with. *)
Fixpoint trim_end (s : string) : string :=
  match s with
  | EmptyString => EmptyString
  | String c s' =>
      if all_whitespace_go 0 s then EmptyString else String c (trim_end s')
  end.

Definition trim (s : string) : string := trim_end (trim_start s).

(** The value of a digit in a radix up to 16, if [c] is one. *)
Definition digit_of (radix : N) (c : ascii) : option N :=
  let n := N_of_ascii c in
  let v :=
    if (48 <=? n)%N && (n <=? 57)%N then Some (n - 48)%N
    else if (97 <=? n)%N && (n <=? 102)%N then Some (n - 87)%N
    else if (65 <=? n)%N && (n <=? 70)%N then Some (n - 55)%N
    else None in
  match v with
  | Some d => if (d <? radix)%N then Some d else None
  | None => None
  end.

(** Reads the longest run of digits: the number read so far, how many
    digits were read, and the rest. *)
Fixpoint take_digits (radix : N) (acc : N) (cnt : nat) (s : string) : N * nat * string :=
  match s with
  | EmptyString => (acc, cnt, s)
  | String c s' =>
      match digit_of radix c with
      | Some d => take_digits radix (acc * radix + d)%N (S cnt) s'
      | None => (acc, cnt, s)
      end
  end.

(** [ExponentPart_opt] followed by the end of the string: the exponent. *)
Definition parse_exponent (s : string) : option Z :=
  match s with
  | EmptyString => Some 0%Z
  | String c r =>
      if Ascii.eqb c "e" || Ascii.eqb c "E" then
        let '(neg, r') :=
          match r with
          | String "+" t => (false, t)
          | String "-" t => (true, t)
          | _ => (false, r)
          end in
        match take_digits 10 0 0 r' with
        | (_, O, _) => None
        | (v, _, EmptyString) => Some (if neg then - Z.of_N v else Z.of_N v)%Z
        | _ => None
        end
      else None
  end.

(** [StrUnsignedDecimalLiteral] other than [Infinity]: the digits as one
    integer and the power of ten that scales it. *)
Definition parse_unsigned_decimal (s : string) : option (N * Z) :=
  let '(ip, ni, r1) := take_digits 10 0 0 s in
  let '(m, nf, r2) :=
    match r1 with
    | String "." r => take_digits 10 ip 0 r
    | _ => (ip, O, r1)
    end in
  match ni, nf with
  | O, O => None
  | _, _ =>
      match parse_exponent r2 with
      | Some e => Some (m, (e - Z.of_nat nf)%Z)
      | None => None
      end
  end.

(** [NonDecimalIntegerLiteral]: [0x], [0o], [0b] in either case. *)
Definition parse_non_decimal (s : string) : option N :=
  match s with
  | String "0" (String p r) =>
      let radix :=
        if Ascii.eqb p "x" || Ascii.eqb p "X" then Some 16%N
        else if Ascii.eqb p "o" || Ascii.eqb p "O" then Some 8%N
        else if Ascii.eqb p "b" || Ascii.eqb p "B" then Some 2%N
        else None in
      match radix with
      | Some rx =>
          match take_digits rx 0 0 r with
          | (_, O, _) => None
          | (v, _, EmptyString) => Some v
          | _ => None
          end
      | None => None
      end
  | _ => None
  end.

Definition parse_signed_decimal (neg : bool) (s : string) : number :=
  if String.eqb s "Infinity" then S754_infinity neg
  else match parse_unsigned_decimal s with
       | Some (m, e) => of_decimal neg m e
       | None => NaN
       end.

Definition StringToNumber (s : string) : number :=
  match trim s with
  | EmptyString => pos_zero
  | String c r as t =>
      match parse_non_decimal t with
      | Some v => of_Z (Z.of_N v)
      | None =>
          if Ascii.eqb c "+" then parse_signed_decimal false r
          else if Ascii.eqb c "-" then parse_signed_decimal true r
          else parse_signed_decimal false t
      end
  end.

(** [Number(v)], that is [ToNumber]. A [File] is an object whose primitive
    is the string ["[object File]"]. *)
Definition ToNumber (v : value) : number :=
  match v with
  | Undefined => NaN
  | Null => pos_zero
  | Str s => StringToNumber s
  | Num n => n
  | File _ => StringToNumber "[object File]"
  end.

(** [a * b] *)
Definition times (a b : value) : value := Num (mul (ToNumber a) (ToNumber b)).

End Js.

(* ===================================================================== *)
(** * [Date]: time values and [toISOString] (ECMAScript 21.4.1) *)
(* ===================================================================== *)

Module JsDate.

Local Open Scope Z_scope.

(** A time value is a number of milliseconds since the epoch, in UTC. *)
Definition msPerDay : Z := 86400000.
Definition msPerHour : Z := 3600000.
Definition msPerMinute : Z := 60000.
Definition msPerSecond : Z := 1000.

Definition Day (t : Z) : Z := t / msPerDay.
Definition TimeWithinDay (t : Z) : Z := t mod msPerDay.

Definition DaysInYear (y : Z) : Z :=
  if negb (y mod 4 =? 0) then 365
  else if negb (y mod 100 =? 0) then 366
  else if negb (y mod 400 =? 0) then 365
  else 366.

(** The day number of the first day of year [y]. *)
Definition DayFromYear (y : Z) : Z :=
  365 * (y - 1970) + (y - 1969) / 4 - (y - 1901) / 100 + (y - 1601) / 400.

(** The largest [y] with [DayFromYear y <= Day t]: an estimate from the
    mean length of a year, corrected by at most one. *)
Definition YearFromTime (t : Z) : Z :=
  let d := Day t in
  let y := 1970 + (400 * d) / 146097 in
  if d <? DayFromYear y then y - 1
  else if DayFromYear (y + 1) <=? d then y + 1
  else y.

Definition InLeapYear (t : Z) : Z :=
  if DaysInYear (YearFromTime t) =? 366 then 1 else 0.

Definition DayWithinYear (t : Z) : Z := Day t - DayFromYear (YearFromTime t).

(** Months are numbered from 0. *)
Definition MonthFromTime (t : Z) : Z :=
  let d := DayWithinYear t in
  let l := InLeapYear t in
  if d <? 31 then 0
  else if d <? 59 + l then 1
  else if d <? 90 + l then 2
  else if d <? 120 + l then 3
  else if d <? 151 + l then 4
  else if d <? 181 + l then 5
  else if d <? 212 + l then 6
  else if d <? 243 + l then 7
  else if d <? 273 + l then 8
  else if d <? 304 + l then 9
  else if d <? 334 + l then 10
  else 11.

(** The day of the month, from 1. *)
Definition DateFromTime (t : Z) : Z :=
  let d := DayWithinYear t in
  let l := InLeapYear t in
  match MonthFromTime t with
  | 0 => d + 1
  | 1 => d - 30
  | 2 => d - 58 - l
  | 3 => d - 89 - l
  | 4 => d - 119 - l
  | 5 => d - 150 - l
  | 6 => d - 180 - l
  | 7 => d - 211 - l
  | 8 => d - 242 - l
  | 9 => d - 272 - l
  | 10 => d - 303 - l
  | _ => d - 333 - l
  end.

Definition HourFromTime (t : Z) : Z := (t / msPerHour) mod 24.
Definition MinFromTime (t : Z) : Z := (t / msPerMinute) mod 60.
Definition SecFromTime (t : Z) : Z := (t / msPerSecond) mod 60.
Definition msFromTime (t : Z) : Z := t mod msPerSecond.

Definition digit_char (d : Z) : ascii := ascii_of_N (48 + Z.to_N (d mod 10)).

(** The last [width] decimal digits of [v]: [v] padded with zeros when it
    has no more digits than that. *)
Fixpoint pad_digits (width : nat) (v : Z) : string :=
  match width with
  | O => EmptyString
  | S w => pad_digits w (v / 10) ++ String (digit_char v) EmptyString
  end.

(** Four digits for the years 0 to 9999, otherwise a sign and six. *)
Definition year_string (y : Z) : string :=
  if (0 <=? y) && (y <=? 9999) then pad_digits 4 y
  else String (if y <? 0 then "-"%char else "+"%char) (pad_digits 6 (Z.abs y)).

(** The date part of the ISO format. *)
Definition iso_date (t : Z) : string :=
  year_string (YearFromTime t) ++ "-" ++ pad_digits 2 (MonthFromTime t + 1)
    ++ "-" ++ pad_digits 2 (DateFromTime t).

Definition iso_time (t : Z) : string :=
  pad_digits 2 (HourFromTime t) ++ ":" ++ pad_digits 2 (MinFromTime t)
    ++ ":" ++ pad_digits 2 (SecFromTime t) ++ "." ++ pad_digits 3 (msFromTime t).

(** [new Date(t).toISOString()] *)
Definition toISOString (t : Z) : string :=
  iso_date t ++ "T" ++ iso_time t ++ "Z".

End JsDate.

(* ===================================================================== *)
(** * [zod]: the schemas this code builds and [safeParse] on them *)
(* ===================================================================== *)

Module Zod.

Import JsNum Js.

Inductive IssueCode : Type :=
| invalid_type
| too_small
| invalid_enum_value.

Record Issue : Type := mkIssue {
  code : IssueCode;
  path : string;
  message : string
}.

(** The options a schema constructor takes. *)
Record Params : Type := mkParams {
  invalid_type_error : option string;
  required_error : option string
}.

Definition no_params : Params :=
  {| invalid_type_error := None; required_error := None |}.

(** [.gt(value, { message })] and [.gte(value, { message })] *)
Record MinCheck : Type := mkMin {
  min_value : number;
  min_inclusive : bool;
  min_message : string
}.

Inductive ZodType : Type :=
| ZodString (params : Params)
| ZodNumber (coerce : bool) (checks : list MinCheck) (params : Params)
| ZodEnum (values : list string) (params : Params).

Definition params_of (t : ZodType) : Params :=
  match t with
  | ZodString p | ZodNumber _ _ p | ZodEnum _ p => p
  end.

(** [getParsedType], by the names of [ZodParsedType]. *)
Definition getParsedType (data : value) : string :=
  match data with
  | Undefined => "undefined"
  | Null => "null"
  | Str _ => "string"
  | Num n => if is_nan n then "nan" else "number"
  | File _ => "object"
  end.

(** [util.joinValues]: quoted and separated by bars. *)
Fixpoint joinValues (vs : list string) : string :=
  match vs with
  | [] => EmptyString
  | [v] => "'" ++ v ++ "'"
  | v :: rest => "'" ++ v ++ "' | " ++ joinValues rest
  end.

(** The messages of the default error map. *)
Definition default_invalid_type (expected received : string) : string :=
  if String.eqb received "undefined" then "Required"
  else "Expected " ++ expected ++ ", received " ++ received.

Definition default_invalid_enum_value (options : list string) (received : string) : string :=
  "Invalid enum value. Expected " ++ joinValues options ++ ", received '" ++ received ++ "'".

(** The error map a schema gets from its options: it speaks only for
    [invalid_type] issues, and for a missing value only with
    [required_error]. *)
Definition customMap (p : Params) (c : IssueCode) (data : value) (defaultError : string) : string :=
  match c with
  | invalid_type =>
      match data with
      | Undefined => default defaultError (required_error p)
      | _ => default defaultError (invalid_type_error p)
      end
  | _ => defaultError
  end.

(** What parsing one value gives: the parsed value unless parsing was
    aborted, and the issues raised. *)
Record ParseReturn : Type := mkReturn {
  output : option value;
  issues : list Issue
}.

Definition INVALID (iss : list Issue) : ParseReturn :=
  {| output := None; issues := iss |}.

Definition type_issue (t : ZodType) (key expected : string) (data : value) : Issue :=
  {| code := invalid_type; path := key;
     message := customMap (params_of t) invalid_type data
                  (default_invalid_type expected (getParsedType data)) |}.

(** [input.data <= check.value], or [<] for an inclusive bound. *)
Definition tooSmall (c : MinCheck) (n : number) : bool :=
  if min_inclusive c then ltb n (min_value c) else leb n (min_value c).

Definition check_issues (key : string) (checks : list MinCheck) (n : number) : list Issue :=
  (fun c => {| code := too_small; path := key; message := min_message c |})
    <$> filter (fun c => tooSmall c n = true) checks.

(** [_parse] of the three kinds of schema, at the key [key] of an object. *)
Definition parse (t : ZodType) (key : string) (data : value) : ParseReturn :=
  match t with
  | ZodString _ =>
      match data with
      | Str _ => {| output := Some data; issues := [] |}
      | _ => INVALID [type_issue t key "string" data]
      end
  | ZodNumber coerce checks _ =>
      let data := if coerce then Num (ToNumber data) else data in
      match data with
      | Num n =>
          if is_nan n then INVALID [type_issue t key "number" data]
          else {| output := Some data; issues := check_issues key checks n |}
      | _ => INVALID [type_issue t key "number" data]
      end
  | ZodEnum values p =>
      match data with
      | Str s =>
          if bool_decide (s ∈ values) then {| output := Some data; issues := [] |}
          else INVALID [ {| code := invalid_enum_value; path := key;
                            message := customMap p invalid_enum_value data
                                         (default_invalid_enum_value values s) |} ]
      | _ => INVALID [type_issue t key (joinValues values) data]
      end
  end.

(** An object schema: its keys in order, each with its schema. *)
Definition Shape : Type := list (string * ZodType).

(** [schema.omit(mask)] *)
Definition omit (mask : list string) (shape : Shape) : Shape :=
  filter (fun kt => kt.1 ∉ mask) shape.

(** [data[key]] *)
Definition get_key (data : gmap string value) (key : string) : value :=
  default Undefined (data !! key).

(** [ZodObject._parse] with unknown keys stripped: every key of the shape
    is parsed, in order; the object is aborted if one of them is. *)
Fixpoint parse_object (shape : Shape) (data : gmap string value) : option (gmap string value) * list Issue :=
  match shape with
  | [] => (Some ∅, [])
  | (key, t) :: rest =>
      let r := parse t key (get_key data key) in
      let '(o, iss) := parse_object rest data in
      (match output r, o with
       | Some v, Some m => Some (<[key := v]> m)
       | _, _ => None
       end,
       (issues r ++ iss)%list)
  end.

Inductive SafeParseReturn : Type :=
| Success (data : gmap string value)
| Failure (error : list Issue).

(** [schema.safeParse(data)]: a success needs a value and no issue. *)
Definition safeParse (shape : Shape) (data : gmap string value) : SafeParseReturn :=
  match parse_object shape data with
  | (Some v, []) => Success v
  | (_, iss) => Failure iss
  end.

(** [error.flatten().fieldErrors] *)
Definition fieldErrors (error : list Issue) : gmap string (list string) :=
  fold_left
    (fun acc sub => <[path sub := (default [] (acc !! path sub) ++ [message sub])%list]> acc)
    error ∅.

End Zod.

(* ===================================================================== *)
(** * The collaborators of the actions: form data, storage, the world *)
(* ===================================================================== *)

Module Env.

Import JsNum Js.

(** ** [FormData] *)

Inductive FormDataEntryValue : Type :=
| EntryString (s : string)
| EntryFile (name : string).

(** The entries of a submitted form, in order; names may repeat. *)
Definition FormData : Type := list (string * FormDataEntryValue).

Definition entry_value (e : FormDataEntryValue) : value :=
  match e with
  | EntryString s => Str s
  | EntryFile n => File n
  end.

(** [formData.get(name)]: the first entry of that name, or [null]. *)
Fixpoint get (formData : FormData) (name : string) : value :=
  match formData with
  | [] => Null
  | (k, e) :: rest => if String.eqb k name then entry_value e else get rest name
  end.

(** ** The [invoices] table and the statements sent to it *)

Record InvoiceRow : Type := mkRow {
  row_id : string;
  customer_id : value;
  amount : value;
  status : value;
  date : value
}.

(** The three statements of [actions.ts], with their bound parameters. *)
Inductive Statement : Type :=
| INSERT (customerId amountInCents status date : value)
| UPDATE (customerId amountInCents status : value) (id : string)
| DELETE (id : string).

(** [UPDATE invoices SET customer_id, amount, status WHERE id] on a row. *)
Definition update_row (customerId amountInCents st : value) (id : string) (r : InvoiceRow) : InvoiceRow :=
  if String.eqb (row_id r) id
  then {| row_id := row_id r; customer_id := customerId; amount := amountInCents;
          status := st; date := date r |}
  else r.

(** What a statement that is carried out does to the table; [new_id] is
    the id the table generates for an inserted row. *)
Definition run (new_id : string) (stmt : Statement) (rows : list InvoiceRow) : list InvoiceRow :=
  match stmt with
  | INSERT customerId amountInCents st d =>
      (rows ++ [ {| row_id := new_id; customer_id := customerId;
                    amount := amountInCents; status := st; date := d |} ])%list
  | UPDATE customerId amountInCents st id =>
      update_row customerId amountInCents st id <$> rows
  | DELETE id =>
      filter (fun r => row_id r ≠ id) rows
  end.

(** ** The world the actions run in *)

Record World : Type := mkWorld {
  invoices : list InvoiceRow;      (* the table *)
  now : Z;                         (* the clock: a time value *)
  queries : list Statement;        (* the statements sent, oldest first *)
  revalidated : list string        (* the paths whose cache was cleared *)
}.

(** Computations: they read and change the world, and return or throw. *)
Definition M (A : Type) : Type := World -> completion A * World.

Definition ret {A} (a : A) : M A := fun w => (Returned a, w).

Definition throw {A} (e : error) : M A := fun w => (Thrown e, w).

Definition bind {A B} (m : M A) (k : A -> M B) : M B :=
  fun w =>
    match m w with
    | (Returned a, w') => k a w'
    | (Thrown e, w') => (Thrown e, w')
    end.

(** [try { m } catch (error) { ... }]: the error, if any, as a value. *)
Definition attempt {A} (m : M A) : M (A + error) :=
  fun w =>
    match m w with
    | (Returned a, w') => (Returned (inl a), w')
    | (Thrown e, w') => (Returned (inr e), w')
    end.

Declare Scope action_scope.
Delimit Scope action_scope with action.
Notation "x <- m ;; k" := (bind m (fun x => k))
  (at level 100, m at next level, right associativity) : action_scope.
Notation "m ;; k" := (bind m (fun _ => k))
  (at level 100, right associativity) : action_scope.

(** What the actions do not decide: when the storage rejects a statement
    (and with what error), which id it gives a new row, and how the
    identity provider answers. *)
Class Backend : Type := {
  storage_error : Statement -> list InvoiceRow -> option error;
  generated_id : list InvoiceRow -> string;
  signIn : string -> FormData -> M unit
}.

Section Effects.

Context `{Backend}.

(** [await sql`...`] *)
Definition sql (stmt : Statement) : M unit :=
  fun w =>
    let sent := (queries w ++ [stmt])%list in
    match storage_error stmt (invoices w) with
    | Some e =>
        (Thrown e,
         {| invoices := invoices w; now := now w; queries := sent;
            revalidated := revalidated w |})
    | None =>
        (Returned tt,
         {| invoices := run (generated_id (invoices w)) stmt (invoices w);
            now := now w; queries := sent; revalidated := revalidated w |})
    end.

End Effects.

(** [revalidatePath(path)] *)
Definition revalidatePath (p : string) : M unit :=
  fun w =>
    (Returned tt,
     {| invoices := invoices w; now := now w; queries := queries w;
        revalidated := (revalidated w ++ [p])%list |}).

(** [redirect(path)]: never returns. *)
Definition redirect {A} (p : string) : M A := throw (NextRedirect p).

(** [new Date()]: the time value of the clock. *)
Definition new_Date : M Z := fun w => (Returned (now w), w).

End Env.

(* ===================================================================== *)
(** * [app/lib/actions.ts] *)
(* ===================================================================== *)

Module Actions.

Import JsNum Js JsDate Zod Env.
Local Open Scope action_scope.

Definition FormSchema : Shape :=
  [ ("id", ZodString no_params);
    ("customerId",
      ZodString {| invalid_type_error := Some "Please select a customer.";
                   required_error := None |});
    ("amount",
      ZodNumber true
        [ {| min_value := of_Z 0; min_inclusive := false;
             min_message := "Please enter an amount greater than $0." |} ]
        no_params);
    ("status",
      ZodEnum ["pending"; "paid"]
        {| invalid_type_error := Some "Please select an invoice status.";
           required_error := None |});
    ("date", ZodString no_params) ].

Record State : Type := mkState {
  errors : option (gmap string (list string));
  message : option string
}.

Definition CreateInvoice : Shape := omit ["id"; "date"] FormSchema.

(** The object literal handed to [safeParse]. *)
Definition fields_of (formData : FormData) : gmap string value :=
  {[ "customerId" := get formData "customerId";
     "amount" := get formData "amount";
     "status" := get formData "status" ]}.

(** [l[0]] of an array of strings *)
Definition item0 (l : list string) : value :=
  match l with
  | s :: _ => Str s
  | [] => Undefined
  end.

Section WithBackend.

Context `{Backend}.

Definition createInvoice (prevState : State) (formData : FormData) : M State :=
  let validatedFields := safeParse CreateInvoice (fields_of formData) in
  match validatedFields with
  | Failure error =>
      ret {| errors := Some (fieldErrors error);
             message := Some "Missing Fields. Failed to Create Invoice." |}
  | Success data =>
      let customerId := get_key data "customerId" in
      let amount := get_key data "amount" in
      let status := get_key data "status" in
      let amountInCents := times amount (Num (of_Z 100)) in
      t <- new_Date ;;
      let date := item0 (split (toISOString t) "T") in
      r <- attempt (sql (INSERT customerId amountInCents status date)) ;;
      match r with
      | inr _ =>
          ret {| errors := None;
                 message := Some "Database Error: Failed to Create Invoice." |}
      | inl _ =>
          revalidatePath "/dashboard/invoices" ;;
          redirect "/dashboard/invoices"
      end
  end.

Definition UpdateInvoice : Shape := omit ["id"; "date"] FormSchema.

Definition updateInvoice (id : string) (prevState : State) (formData : FormData) : M State :=
  let validatedFields := safeParse UpdateInvoice (fields_of formData) in
  match validatedFields with
  | Failure error =>
      ret {| errors := Some (fieldErrors error);
             message := Some "Missing Fields. Failed to Update Invoice." |}
  | Success data =>
      let customerId := get_key data "customerId" in
      let amount := get_key data "amount" in
      let status := get_key data "status" in
      let amountInCents := times amount (Num (of_Z 100)) in
      r <- attempt (sql (UPDATE customerId amountInCents status id)) ;;
      match r with
      | inr _ =>
          ret {| errors := None;
                 message := Some "Database Error: Failed to Update Invoice." |}
      | inl _ =>
          revalidatePath "/dashboard/invoices" ;;
          redirect "/dashboard/invoices"
      end
  end.

(** The block after the [throw] is kept as the source has it. *)
Definition deleteInvoice (id : string) : M State :=
  throw (A := unit) (Error "Failed to Delete Invoice") ;;
  r <- attempt (sql (DELETE id) ;; revalidatePath "/dashboard/invoices") ;;
  match r with
  | inl _ => ret {| errors := None; message := Some "Deleted Invoice." |}
  | inr _ =>
      ret {| errors := None;
             message := Some "Database Error: Failed to Delete Invoice." |}
  end.

(** Returns a message, or nothing ([undefined]) when [signIn] returns. *)
Definition authenticate (prevState : option string) (formData : FormData) : M (option string) :=
  r <- attempt (signIn "credentials" formData) ;;
  match r with
  | inl _ => ret None
  | inr error =>
      match error with
      | AuthError type =>
          if String.eqb type "CredentialsSignin"
          then ret (Some "Invalid credentials.")
          else ret (Some "Something went wrong.")
      | _ => throw error
      end
  end.

End WithBackend.

End Actions.

(* ===================================================================== *)
(** * [auth.config.ts] *)
(* ===================================================================== *)

Module AuthConfig.

Import Js.

Record User : Type := mkUser {
  name : string;
  email : string
}.

Record Session : Type := mkSession {
  user : option User
}.

(** The parts of a URL: [href] is their concatenation. *)
Record URL : Type := mkURL {
  origin : string;
  pathname : string;
  search : string;
  hash : string
}.

Definition href (u : URL) : string :=
  origin u ++ pathname u ++ search u ++ hash u.

(** [new URL(path, base)] for an absolute path without query or fragment. *)
Definition new_URL (p : string) (base : URL) : URL :=
  {| origin := origin base; pathname := p; search := EmptyString; hash := EmptyString |}.

Record Response : Type := mkResponse {
  status : Z;
  location : string
}.

(** [Response.redirect(url)]: status 302 and a [Location] header. *)
Definition Response_redirect (u : URL) : Response :=
  {| status := 302; location := href u |}.

(** What [authorized] returns: a boolean or a response. *)
Inductive Authorized : Type :=
| Bool (b : bool)
| Resp (r : Response).

(** [pages.signIn] *)
Definition pages_signIn : string := "/login".

(** [!!auth?.user] *)
Definition isLoggedIn (auth : option Session) : bool :=
  match auth with
  | Some s => match user s with Some _ => true | None => false end
  | None => false
  end.

Definition authorized (auth : option Session) (nextUrl : URL) : Authorized :=
  let isLoggedIn := isLoggedIn auth in
  let isOnDashboard := startsWith (pathname nextUrl) "/dashboard" in
  if isOnDashboard then
    if isLoggedIn then Bool true
    else Bool false
  else if isLoggedIn then
    Resp (Response_redirect (new_URL "/dashboard" nextUrl))
  else Bool true.

(** The decisions of the specification, and how the caller reads the
    value [authorized] returns. *)
Inductive Decision : Type :=
| Allow
| Deny
| RedirectTo (target : string).

Definition decision (r : Authorized) : Decision :=
  match r with
  | Bool true => Allow
  | Bool false => Deny
  | Resp r => RedirectTo (location r)
  end.

End AuthConfig.

(* ===================================================================== *)
(** * The contract: what the specification says, in its own terms *)
(* ===================================================================== *)

Module Contract.

Import JsNum Js JsDate Env AuthConfig.

(** ** The constraints of the three validated fields, as the schema
    has them *)

(** Any string, the empty one too. *)
Definition customerId_ok (v : value) : bool :=
  match v with
  | Str _ => true
  | _ => false
  end.

(** The coerced amount is a number, and greater than 0. *)
Definition amount_ok (v : value) : bool :=
  negb (is_nan (ToNumber v)) && negb (leb (ToNumber v) (of_Z 0)).

Definition status_ok (v : value) : bool :=
  match v with
  | Str s => String.eqb s "pending" || String.eqb s "paid"
  | _ => false
  end.

Definition valid_form (formData : FormData) : bool :=
  customerId_ok (get formData "customerId")
  && amount_ok (get formData "amount")
  && status_ok (get formData "status").

(** ** The messages of a field that fails, none if it does not *)

Definition customerId_messages (v : value) : list string :=
  match v with
  | Str _ => []
  | Undefined => ["Required"]
  | _ => ["Please select a customer."]
  end.

Definition amount_messages (v : value) : list string :=
  if is_nan (ToNumber v) then ["Expected number, received nan"]
  else if leb (ToNumber v) (of_Z 0) then ["Please enter an amount greater than $0."]
  else [].

Definition status_messages (v : value) : list string :=
  match v with
  | Str s =>
      if String.eqb s "pending" || String.eqb s "paid" then []
      else ["Invalid enum value. Expected 'pending' | 'paid', received '" ++ s ++ "'"]
  | Undefined => ["Required"]
  | _ => ["Please select an invoice status."]
  end.

(** The messages of the issues raised at the key [k]. *)
Definition messages_at (k : string) (iss : list Zod.Issue) : list string :=
  Zod.message <$> filter (fun i => Zod.path i = k) iss.

(** The FieldErrorMap: a field is present exactly when it has messages. *)
Definition entry (ms : list string) : option (list string) :=
  match ms with
  | [] => None
  | _ => Some ms
  end.

Definition is_FieldErrorMap (formData : FormData) (m : gmap string (list string)) : Prop :=
  m !! "customerId" = entry (customerId_messages (get formData "customerId"))
  /\ m !! "amount" = entry (amount_messages (get formData "amount"))
  /\ m !! "status" = entry (status_messages (get formData "status"))
  /\ forall k, k <> "customerId" -> k <> "amount" -> k <> "status" -> m !! k = None.

(** The issues the validator of the two forms raises. *)
Definition validation_issues (formData : FormData) : list Zod.Issue :=
  (Zod.parse_object Actions.CreateInvoice (Actions.fields_of formData)).2.

(** ** The statements a valid form leads to *)

Definition amountInCents_of (formData : FormData) : value :=
  Num (mul (ToNumber (get formData "amount")) (of_Z 100)).

Definition insert_of (formData : FormData) (w : World) : Statement :=
  INSERT (get formData "customerId") (amountInCents_of formData)
         (get formData "status") (Str (iso_date (now w))).

Definition update_of (id : string) (formData : FormData) : Statement :=
  UPDATE (get formData "customerId") (amountInCents_of formData)
         (get formData "status") id.

(** ** Calendar dates *)

Definition is_digit (c : ascii) : bool :=
  (48 <=? N_of_ascii c)%N && (N_of_ascii c <=? 57)%N.

(** Every character of [s] passes [p]. *)
Fixpoint all_chars (p : ascii -> bool) (s : string) : bool :=
  match s with
  | EmptyString => true
  | String c s' => p c && all_chars p s'
  end.

(** The characters of a date in the ISO format. *)
Definition date_char (c : ascii) : bool :=
  is_digit c || Ascii.eqb c "-" || Ascii.eqb c "+".

(** The form YYYY-MM-DD. *)
Definition is_iso_calendar_date (s : string) : bool :=
  match s with
  | String y1 (String y2 (String y3 (String y4 (String "-"
      (String m1 (String m2 (String "-" (String d1 (String d2 EmptyString))))))))) =>
      forallb is_digit [y1; y2; y3; y4; m1; m2; d1; d2]
  | _ => false
  end.

(** [MakeDay]: the day number of the day [d] (from 1) of the month [m]
    (from 0) of the year [y]. *)
Definition month_start (m leap : Z) : Z :=
  match m with
  | 0 => 0
  | 1 => 31
  | 2 => 59 + leap
  | 3 => 90 + leap
  | 4 => 120 + leap
  | 5 => 151 + leap
  | 6 => 181 + leap
  | 7 => 212 + leap
  | 8 => 243 + leap
  | 9 => 273 + leap
  | 10 => 304 + leap
  | _ => 334 + leap
  end%Z.

Definition MakeDay (y m d : Z) : Z :=
  (DayFromYear y + month_start m (if DaysInYear y =? 366 then 1 else 0) + d - 1)%Z.

(** The first and the last time value of the years 0000 to 9999. *)
Definition year_0000 : Z := -62167219200000.
Definition year_9999_end : Z := 253402300799999.

(** ** The calendar, on its own *)

(** The Gregorian rule for leap years. *)
Definition leap_year (y : Z) : bool :=
  ((y mod 4 =? 0) && (negb (y mod 100 =? 0) || (y mod 400 =? 0)))%Z.

(** The length of the month [m] (from 1) of the year [y]. *)
Definition days_in_month (y m : Z) : Z :=
  match m with
  | 1 | 3 | 5 | 7 | 8 | 10 | 12 => 31
  | 4 | 6 | 9 | 11 => 30
  | 2 => if leap_year y then 29 else 28
  | _ => 0
  end%Z.

(** The number of days from 1970-01-01 to the day [d] (from 1) of the
    month [m] (from 1) of the year [y], counting years from March in
    cycles of 400 years (146097 days). *)
Definition days_from_civil (y m d : Z) : Z :=
  (let y' := if m <=? 2 then y - 1 else y in
   let era := y' / 400 in
   let yoe := y' - era * 400 in
   let mp := if m <=? 2 then m + 9 else m - 3 in
   let doy := (153 * mp + 2) / 5 + d - 1 in
   let doe := yoe * 365 + yoe / 4 - yoe / 100 + doy in
   era * 146097 + doe - 719468)%Z.

(** The decimal digit of a number from 0 to 9. *)
Definition digit (n : Z) : ascii :=
  match n with
  | 0 => "0" | 1 => "1" | 2 => "2" | 3 => "3" | 4 => "4"
  | 5 => "5" | 6 => "6" | 7 => "7" | 8 => "8" | _ => "9"
  end%Z%char.

(** A number below 100 in two digits, a number below 10000 in four. *)
Definition decimal2 (n : Z) : string :=
  String (digit (n / 10)) (String (digit (n mod 10)) EmptyString).

Definition decimal4 (n : Z) : string :=
  decimal2 (n / 100) ++ decimal2 (n mod 100).

(** The calendar date written YYYY-MM-DD. *)
Definition yyyy_mm_dd (y m d : Z) : string :=
  decimal4 y ++ "-" ++ decimal2 m ++ "-" ++ decimal2 d.

(** ** The constraint of customerId, in the words of the specification *)

(** A required, non-empty string. *)
Definition customerId_nonempty (v : value) : bool :=
  match v with
  | Str s => negb (String.eqb s EmptyString)
  | _ => false
  end.

(** ** The Session Authorizer, in the words of the specification *)

Definition protected_prefix : string := "/dashboard".

Definition dashboard_home (nextUrl : URL) : string := origin nextUrl ++ "/dashboard".

Definition authorizer (isAuthenticated : bool) (nextUrl : URL) : Decision :=
  if startsWith (pathname nextUrl) protected_prefix then
    if isAuthenticated then Allow else Deny
  else if isAuthenticated then RedirectTo (dashboard_home nextUrl)
  else Allow.

End Contract.

(* ===================================================================== *)
(** * Sample worlds, backends and forms *)
(* ===================================================================== *)

Module Samples.

Import JsNum Js Env Actions.

(** A storage that carries out every statement, and a provider that
    signs everybody in. *)
Definition reliable : Backend :=
  {| storage_error := fun _ _ => None;
     generated_id := fun rows => "inv-" ++ pretty (length rows);
     signIn := fun _ _ => ret tt |}.

(** A storage that rejects every statement, and a provider that is down. *)
Definition broken : Backend :=
  {| storage_error := fun _ _ => Some (Error "connection refused");
     generated_id := fun _ => EmptyString;
     signIn := fun _ _ => throw (Error "fetch failed") |}.

(** A provider that rejects the credentials. *)
Definition wrong_password : Backend :=
  {| storage_error := fun _ _ => None;
     generated_id := fun _ => EmptyString;
     signIn := fun _ _ => throw (AuthError "CredentialsSignin") |}.

(** A provider that fails in another way of its own. *)
Definition callback_failure : Backend :=
  {| storage_error := fun _ _ => None;
     generated_id := fun _ => EmptyString;
     signIn := fun _ _ => throw (AuthError "CallbackRouteError") |}.

Definition row1 : InvoiceRow :=
  {| row_id := "inv-0"; customer_id := Str "c1"; amount := Num (of_Z 1500);
     status := Str "pending"; date := Str "2023-12-06" |}.

Definition row2 : InvoiceRow :=
  {| row_id := "inv-1"; customer_id := Str "c2"; amount := Num (of_Z 250);
     status := Str "paid"; date := Str "2023-11-14" |}.

(** 2024-01-01T12:34:56.789Z *)
Definition world0 : World :=
  {| invoices := [row1; row2]; now := 1704112496789; queries := [];
     revalidated := [] |}.

Definition prev0 : State := {| errors := None; message := None |}.

Definition form_19_99 : FormData :=
  [ ("customerId", EntryString "c1"); ("amount", EntryString "19.99");
    ("status", EntryString "paid") ].

Definition form_with_date : FormData :=
  [ ("customerId", EntryString "c1"); ("amount", EntryString "19.99");
    ("status", EntryString "paid"); ("date", EntryString "1999-12-31") ].

Definition form_empty_amount : FormData :=
  [ ("customerId", EntryString "c1"); ("amount", EntryString EmptyString);
    ("status", EntryString "paid") ].

Definition form_abc_amount : FormData :=
  [ ("customerId", EntryString "c1"); ("amount", EntryString "abc");
    ("status", EntryString "paid") ].

Definition form_nothing : FormData := [].

Definition form_empty_customer : FormData :=
  [ ("customerId", EntryString EmptyString); ("amount", EntryString "5");
    ("status", EntryString "paid") ].

Definition form_unknown_status : FormData :=
  [ ("customerId", EntryString "c1"); ("amount", EntryString "5");
    ("status", EntryString "Paid") ].

Definition form_infinite_amount : FormData :=
  [ ("customerId", EntryString "c1"); ("amount", EntryString "Infinity");
    ("status", EntryString "paid") ].

Definition form_other : FormData :=
  [ ("customerId", EntryString "c9"); ("amount", EntryString "30");
    ("status", EntryString "pending") ].

(** 2024-01-01T00:00:00.000Z, with an empty table *)
Definition world_midnight : World :=
  {| invoices := []; now := 1704067200000; queries := [];
     revalidated := [] |}.

(** 10000-01-01T00:00:00.000Z *)
Definition world_year_10000 : World :=
  {| invoices := []; now := 253402300800000; queries := [];
     revalidated := [] |}.

(** Somebody signed in, and nobody. *)
Definition signed_in : option AuthConfig.Session :=
  Some {| AuthConfig.user :=
            Some {| AuthConfig.name := "User"; AuthConfig.email := "user@nextmail.com" |} |}.

Definition signed_out : option AuthConfig.Session := None.

Definition login_url : AuthConfig.URL :=
  {| AuthConfig.origin := "https://example.com"; AuthConfig.pathname := "/login";
     AuthConfig.search := "?callbackUrl=x"; AuthConfig.hash := EmptyString |}.

Definition invoices_url : AuthConfig.URL :=
  {| AuthConfig.origin := "https://example.com";
     AuthConfig.pathname := "/dashboard/invoices";
     AuthConfig.search := EmptyString; AuthConfig.hash := EmptyString |}.

Definition reports_url : AuthConfig.URL :=
  {| AuthConfig.origin := "https://example.com";
     AuthConfig.pathname := "/dashboard-reports";
     AuthConfig.search := EmptyString; AuthConfig.hash := "#top" |}.

Definition credentials : FormData :=
  [ ("email", EntryString "user@nextmail.com"); ("password", EntryString "123456") ].

End Samples.

(* ===================================================================== *)
(** * Facts about the calendar *)
(* ===================================================================== *)

Section CalendarFacts.

Import JsDate Contract.
Local Open Scope Z_scope.

(** The estimate of [YearFromTime] is off by at most one year. *)
Lemma year_estimate (d : Z) :
  DayFromYear (1970 + 400 * d / 146097 - 1) <= d
  < DayFromYear (1970 + 400 * d / 146097 + 2).
Proof. unfold DayFromYear. Z.div_mod_to_equations. lia. Qed.

(** [YearFromTime t] is the year whose days include [Day t]. *)
Lemma YearFromTime_spec (t : Z) :
  DayFromYear (YearFromTime t) <= Day t < DayFromYear (YearFromTime t + 1).
Proof.
  unfold YearFromTime.
  pose proof (year_estimate (Day t)) as E.
  set (y := 1970 + 400 * Day t / 146097) in *.
  replace (y + 2) with (y + 1 + 1) in E by lia.
  destruct (Z.ltb_spec (Day t) (DayFromYear y)).
  - replace (y - 1 + 1) with y by lia. lia.
  - destruct (Z.leb_spec (DayFromYear (y + 1)) (Day t)); lia.
Qed.

Lemma DayFromYear_step (y : Z) :
  DayFromYear (y + 1) = DayFromYear y + DaysInYear y.
Proof.
  unfold DayFromYear, DaysInYear.
  destruct (Z.eqb_spec (y mod 4) 0); cbn [negb];
    [ destruct (Z.eqb_spec (y mod 100) 0); cbn [negb];
      [ destruct (Z.eqb_spec (y mod 400) 0); cbn [negb] | ] | ];
    Z.div_mod_to_equations; lia.
Qed.

Lemma DaysInYear_cases (y : Z) : DaysInYear y = 365 \/ DaysInYear y = 366.
Proof.
  unfold DaysInYear.
  repeat match goal with |- context [negb ?b] => destruct b; cbn [negb] end; auto.
Qed.

Lemma DayFromYear_mono (y y' : Z) : y <= y' -> DayFromYear y <= DayFromYear y'.
Proof. unfold DayFromYear. intros. Z.div_mod_to_equations. lia. Qed.

Lemma DayWithinYear_range (t : Z) :
  0 <= DayWithinYear t < DaysInYear (YearFromTime t).
Proof.
  unfold DayWithinYear.
  pose proof (YearFromTime_spec t) as S.
  rewrite DayFromYear_step in S. lia.
Qed.

Lemma InLeapYear_days (t : Z) :
  DaysInYear (YearFromTime t) = 365 + InLeapYear t
  /\ (InLeapYear t = 0 \/ InLeapYear t = 1).
Proof.
  unfold InLeapYear.
  destruct (DaysInYear_cases (YearFromTime t)) as [E | E]; rewrite E; cbn; lia.
Qed.

Ltac month_cascade :=
  repeat match goal with
         | |- context [Z.ltb ?a ?b] => destruct (Z.ltb_spec a b)
         end.

Lemma MonthFromTime_range (t : Z) : 0 <= MonthFromTime t <= 11.
Proof. unfold MonthFromTime. month_cascade; lia. Qed.

Lemma DateFromTime_range (t : Z) : 1 <= DateFromTime t <= 31.
Proof.
  pose proof (DayWithinYear_range t) as R.
  destruct (InLeapYear_days t) as [E L]. rewrite E in R. clear E.
  unfold DateFromTime, MonthFromTime.
  set (d := DayWithinYear t) in *. set (l := InLeapYear t) in *.
  month_cascade; cbn beta iota; lia.
Qed.

(** The year, month and day of a time value are those of its day. *)
Lemma MakeDay_of_time (t : Z) :
  MakeDay (YearFromTime t) (MonthFromTime t) (DateFromTime t) = Day t.
Proof.
  unfold MakeDay. fold (InLeapYear t).
  unfold DateFromTime, MonthFromTime.
  assert (Day t = DayFromYear (YearFromTime t) + DayWithinYear t) as ->
    by (unfold DayWithinYear; lia).
  set (d := DayWithinYear t). set (l := InLeapYear t).
  month_cascade; cbn beta iota; unfold month_start; lia.
Qed.

(** Time values of the years 0000 to 9999 have such a year. *)
Lemma YearFromTime_four_digits (t : Z) :
  year_0000 <= t <= year_9999_end -> 0 <= YearFromTime t <= 9999.
Proof.
  intros R. pose proof (YearFromTime_spec t) as S.
  assert (DayFromYear 0 <= Day t < DayFromYear 10000) as D.
  { unfold Day, msPerDay, year_0000, year_9999_end in *.
    change (DayFromYear 0) with (-719528). change (DayFromYear 10000) with 2932897.
    Z.div_mod_to_equations. lia. }
  split.
  - destruct (Z.le_gt_cases 0 (YearFromTime t)) as [|G]; [done|].
    pose proof (DayFromYear_mono (YearFromTime t + 1) 0). lia.
  - destruct (Z.le_gt_cases (YearFromTime t) 9999) as [|G]; [done|].
    pose proof (DayFromYear_mono 10000 (YearFromTime t)). lia.
Qed.

(** ** The model against the calendar on its own *)

Lemma leap_year_DaysInYear (y : Z) :
  DaysInYear y = if leap_year y then 366 else 365.
Proof.
  unfold DaysInYear, leap_year.
  destruct (y mod 4 =? 0), (y mod 100 =? 0), (y mod 400 =? 0); reflexivity.
Qed.

(** The day count from March-based years agrees with the day count from
    the first day of the year. *)
Lemma days_from_civil_MakeDay (y m d : Z) :
  0 <= m <= 11 -> days_from_civil y (m + 1) d = MakeDay y m d.
Proof.
  intros R. unfold MakeDay. rewrite leap_year_DaysInYear.
  assert (m = 0 \/ m = 1 \/ m = 2 \/ m = 3 \/ m = 4 \/ m = 5 \/ m = 6 \/ m = 7
          \/ m = 8 \/ m = 9 \/ m = 10 \/ m = 11) as C by lia.
  unfold leap_year.
  destruct (Z.eqb_spec (y mod 4) 0), (Z.eqb_spec (y mod 100) 0),
    (Z.eqb_spec (y mod 400) 0); cbn [andb orb negb];
    repeat (destruct C as [-> | C]); try subst m;
    unfold days_from_civil, DayFromYear, month_start;
    repeat match goal with
           | |- context [(?a + 1 <=? 2)] =>
               let v := eval compute in (a + 1 <=? 2) in
               change (a + 1 <=? 2) with v
           end;
    try change (366 =? 366) with true; try change (365 =? 366) with false;
    cbv iota; Z.div_mod_to_equations; lia.
Qed.

(** The day of the month is a day of that month. *)
Lemma DateFromTime_in_month (t : Z) :
  1 <= DateFromTime t <= days_in_month (YearFromTime t) (MonthFromTime t + 1).
Proof.
  pose proof (DayWithinYear_range t) as R.
  rewrite leap_year_DaysInYear in R.
  unfold DateFromTime, MonthFromTime, InLeapYear in *.
  rewrite leap_year_DaysInYear.
  set (d := DayWithinYear t) in *.
  unfold days_in_month.
  destruct (leap_year (YearFromTime t));
    try change (366 =? 366) with true; try change (365 =? 366) with false;
    cbv iota; month_cascade;
    repeat match goal with
           | |- context [Zpos ?p + 1] =>
               let v := eval compute in (Zpos p + 1) in
               change (Zpos p + 1) with v
           | |- context [0 + 1] => change (0 + 1) with 1
           end;
    cbv beta iota; lia.
Qed.

(** The year, month and day of a time value are the calendar date of its
    day, the number of whole days since the epoch. *)
Lemma days_from_civil_of_time (t : Z) :
  days_from_civil (YearFromTime t) (MonthFromTime t + 1) (DateFromTime t)
  = t / 86400000.
Proof.
  rewrite days_from_civil_MakeDay by apply MonthFromTime_range.
  apply MakeDay_of_time.
Qed.

End CalendarFacts.

(* ===================================================================== *)
(** * Facts about strings: digits, the ISO format, [split] *)
(* ===================================================================== *)

Section StringFacts.

Import Js JsDate Contract.

Lemma append_nil (b : string) : EmptyString ++ b = b.
Proof. reflexivity. Qed.

Lemma append_String (c : ascii) (a b : string) :
  String c a ++ b = String c (a ++ b).
Proof. reflexivity. Qed.

Ltac norm_append := repeat (rewrite append_String || rewrite append_nil).

Lemma append_assoc (a b c : string) : (a ++ b) ++ c = a ++ (b ++ c).
Proof. induction a as [|x a IH]; norm_append; [done|]. by rewrite IH. Qed.

Lemma append_empty (a : string) : a ++ EmptyString = a.
Proof. induction a as [|x a IH]; norm_append; [done|]. by rewrite IH. Qed.

Lemma length_append (a b : string) :
  String.length (a ++ b) = String.length a + String.length b.
Proof. induction a as [|x a IH]; norm_append; cbn; [done|]. by rewrite IH. Qed.

Lemma all_chars_app (p : ascii -> bool) (a b : string) :
  all_chars p (a ++ b) = all_chars p a && all_chars p b.
Proof.
  induction a as [|c a IH]; norm_append; cbn; [done|].
  rewrite IH. by rewrite andb_assoc.
Qed.

Lemma all_chars_weaken (p q : ascii -> bool) (s : string) :
  (forall c, p c = true -> q c = true) ->
  all_chars p s = true -> all_chars q s = true.
Proof.
  intros I. induction s as [|c s IH]; cbn; [done|].
  intros [Hc Hs]%andb_prop. rewrite (I _ Hc), (IH Hs). done.
Qed.

(** A digit character is one of the ten. *)
Lemma digit_char_cases (d : Z) :
  In (digit_char d) ["0"; "1"; "2"; "3"; "4"; "5"; "6"; "7"; "8"; "9"]%char.
Proof.
  unfold digit_char.
  pose proof (Z.mod_pos_bound d 10 eq_refl) as B.
  assert (d mod 10 = 0 \/ d mod 10 = 1 \/ d mod 10 = 2 \/ d mod 10 = 3
          \/ d mod 10 = 4 \/ d mod 10 = 5 \/ d mod 10 = 6 \/ d mod 10 = 7
          \/ d mod 10 = 8 \/ d mod 10 = 9)%Z as C by lia.
  repeat (destruct C as [-> | C]; [cbn; tauto|]).
  rewrite C. cbn. tauto.
Qed.

Lemma digit_char_is_digit (d : Z) : is_digit (digit_char d) = true.
Proof.
  pose proof (digit_char_cases d) as C. cbn in C.
  repeat (destruct C as [<- | C]; [reflexivity|]). done.
Qed.

Lemma pad_digits_all_digits (w : nat) (v : Z) :
  all_chars is_digit (pad_digits w v) = true.
Proof.
  revert v. induction w as [|w IH]; intros v; cbn; [done|].
  rewrite all_chars_app, IH. cbn. by rewrite digit_char_is_digit.
Qed.

Lemma pad_digits_length (w : nat) (v : Z) : String.length (pad_digits w v) = w.
Proof.
  revert v. induction w as [|w IH]; intros v; cbn; [done|].
  rewrite length_append, IH. cbn. lia.
Qed.

(** The digits written are those of the number: reading them back in
    base ten gives it, when it fits the width. *)
Lemma digit_of_digit_char (d : Z) :
  digit_of 10 (digit_char d) = Some (Z.to_N (d mod 10)).
Proof.
  unfold digit_char.
  pose proof (Z.mod_pos_bound d 10 eq_refl) as B.
  assert (d mod 10 = 0 \/ d mod 10 = 1 \/ d mod 10 = 2 \/ d mod 10 = 3
          \/ d mod 10 = 4 \/ d mod 10 = 5 \/ d mod 10 = 6 \/ d mod 10 = 7
          \/ d mod 10 = 8 \/ d mod 10 = 9)%Z as C by lia.
  repeat (destruct C as [-> | C]; [reflexivity|]).
  rewrite C. reflexivity.
Qed.

Lemma take_digits_pad_digits (w : nat) (v : Z) (acc : N) (cnt : nat) (rest : string) :
  (0 <= v < 10 ^ Z.of_nat w)%Z ->
  take_digits 10 acc cnt (pad_digits w v ++ rest)
  = take_digits 10 (acc * 10 ^ N.of_nat w + Z.to_N v) (cnt + w) rest.
Proof.
  revert v acc cnt rest. induction w as [|w IH]; intros v acc cnt rest R.
  - cbn [pad_digits]. norm_append. change (10 ^ Z.of_nat 0)%Z with 1%Z in R.
    replace v with 0%Z by lia. f_equal; lia.
  - cbn [pad_digits]. rewrite append_assoc. norm_append.
    rewrite Nat2Z.inj_succ, Z.pow_succ_r in R by lia.
    rewrite IH by (Z.div_mod_to_equations; lia).
    cbn [take_digits]. rewrite digit_of_digit_char.
    f_equal; [|lia].
    rewrite Nat2N.inj_succ, N.pow_succ_r'.
    assert (v = 10 * (v / 10) + v mod 10)%Z as E by (Z.div_mod_to_equations; lia).
    rewrite E at 3.
    rewrite Z2N.inj_add, Z2N.inj_mul by (Z.div_mod_to_equations; lia).
    change (Z.to_N 10) with 10%N. lia.
Qed.

Lemma pad_digits_reads_back (w : nat) (v : Z) :
  (0 <= v < 10 ^ Z.of_nat w)%Z ->
  take_digits 10 0 0 (pad_digits w v) = (Z.to_N v, w, EmptyString).
Proof.
  intros R. pose proof (take_digits_pad_digits w v 0 0 EmptyString R) as E.
  rewrite append_empty in E. rewrite E. cbn [take_digits]. by rewrite N.mul_0_l.
Qed.

(** ** The ISO format *)

Lemma year_string_four_digits (y : Z) :
  (0 <= y <= 9999)%Z -> year_string y = pad_digits 4 y.
Proof.
  intros [L U]. unfold year_string.
  apply Z.leb_le in L, U. by rewrite L, U.
Qed.

Lemma pad_digits_date_chars (w : nat) (v : Z) :
  all_chars date_char (pad_digits w v) = true.
Proof.
  eapply all_chars_weaken; [|apply pad_digits_all_digits].
  unfold date_char. by intros c ->.
Qed.

Lemma year_string_chars (y : Z) : all_chars date_char (year_string y) = true.
Proof.
  unfold year_string.
  destruct (_ && _); [apply pad_digits_date_chars|].
  cbn [all_chars]. rewrite pad_digits_date_chars.
  by destruct (_ <? _)%Z.
Qed.

Lemma iso_date_chars (t : Z) : all_chars date_char (iso_date t) = true.
Proof.
  unfold iso_date.
  by rewrite !all_chars_app, year_string_chars, !pad_digits_date_chars.
Qed.

Lemma iso_date_no_T (t : Z) :
  all_chars (fun c => negb (Ascii.eqb c "T")) (iso_date t) = true.
Proof.
  eapply all_chars_weaken; [|apply iso_date_chars].
  intros c. destruct (Ascii.eqb_spec c "T") as [->|]; [by cbn|done].
Qed.

(** ** [split] *)

Lemma prefix_char (x c : ascii) (s : string) :
  String.prefix (String x EmptyString) (String c s) = bool_decide (x = c).
Proof.
  cbn [String.prefix]. destruct (ascii_dec x c) as [E|E].
  - rewrite bool_decide_eq_true_2 by done. by destruct s.
  - by rewrite bool_decide_eq_false_2.
Qed.

Lemma split_go_first (a b : string) :
  all_chars (fun c => negb (Ascii.eqb c "T")) a = true ->
  split_go "T" 0 (a ++ String "T" b) = a :: split_go "T" 0 b.
Proof.
  induction a as [|c a IH]; norm_append; cbn [all_chars]; intros N.
  - cbn [split_go]. by rewrite prefix_char.
  - apply andb_prop in N as [Nc Na].
    cbn [split_go]. rewrite prefix_char, (IH Na).
    rewrite bool_decide_eq_false_2; [done|].
    intros <-. by cbn in Nc.
Qed.

(** The piece before the [T] of an ISO string is its date. *)
Lemma split_toISOString (t : Z) :
  Actions.item0 (split (toISOString t) "T") = Str (iso_date t).
Proof.
  unfold toISOString, split. norm_append.
  by rewrite split_go_first by apply iso_date_no_T.
Qed.

(** The date of a four-digit year has the form YYYY-MM-DD. *)
Lemma iso_date_form (t : Z) :
  (0 <= YearFromTime t <= 9999)%Z -> is_iso_calendar_date (iso_date t) = true.
Proof.
  intros Y. unfold iso_date. rewrite year_string_four_digits by done.
  cbn [pad_digits]. norm_append. cbn [is_iso_calendar_date forallb].
  by rewrite !digit_char_is_digit.
Qed.

(** ** The digits written against the numerals on their own *)

Lemma digit_char_digit (d : Z) : digit_char d = digit (d mod 10).
Proof.
  unfold digit_char.
  pose proof (Z.mod_pos_bound d 10 eq_refl) as B.
  assert (d mod 10 = 0 \/ d mod 10 = 1 \/ d mod 10 = 2 \/ d mod 10 = 3
          \/ d mod 10 = 4 \/ d mod 10 = 5 \/ d mod 10 = 6 \/ d mod 10 = 7
          \/ d mod 10 = 8 \/ d mod 10 = 9)%Z as C by lia.
  repeat (destruct C as [-> | C]; [reflexivity|]).
  rewrite C. reflexivity.
Qed.

Lemma pad_digits_decimal2 (n : Z) :
  (0 <= n < 100)%Z -> pad_digits 2 n = decimal2 n.
Proof.
  intros R. cbn [pad_digits]. norm_append.
  unfold decimal2. rewrite !digit_char_digit.
  by replace ((n / 10) mod 10)%Z with (n / 10)%Z by (Z.div_mod_to_equations; lia).
Qed.

Lemma pad_digits_decimal4 (n : Z) :
  (0 <= n < 10000)%Z -> pad_digits 4 n = decimal4 n.
Proof.
  intros R. cbn [pad_digits]. norm_append.
  unfold decimal4, decimal2. norm_append.
  rewrite !digit_char_digit.
  replace ((n / 10 / 10 / 10) mod 10)%Z with (n / 100 / 10)%Z
    by (Z.div_mod_to_equations; lia).
  replace ((n / 10 / 10) mod 10)%Z with ((n / 100) mod 10)%Z
    by (Z.div_mod_to_equations; lia).
  replace ((n / 10) mod 10)%Z with (n mod 100 / 10)%Z
    by (Z.div_mod_to_equations; lia).
  by replace (n mod 10)%Z with ((n mod 100) mod 10)%Z
    by (Z.div_mod_to_equations; lia).
Qed.

(** In the years 0000 to 9999 the date part of the ISO string is the
    calendar date of the clock, written YYYY-MM-DD. *)
Lemma iso_date_yyyy_mm_dd (t : Z) :
  (year_0000 <= t <= year_9999_end)%Z ->
  iso_date t = yyyy_mm_dd (YearFromTime t) (MonthFromTime t + 1) (DateFromTime t).
Proof.
  intros R.
  pose proof (YearFromTime_four_digits _ R) as Y.
  pose proof (MonthFromTime_range t) as M.
  pose proof (DateFromTime_range t) as D.
  unfold iso_date, yyyy_mm_dd.
  rewrite year_string_four_digits by done.
  by rewrite pad_digits_decimal4, !pad_digits_decimal2 by lia.
Qed.

End StringFacts.

(* ===================================================================== *)
(** * Facts about the schemas *)
(* ===================================================================== *)

Section ZodFacts.

Import JsNum Js Zod Env Actions Contract.

Local Abbreviation customerId_schema :=
  (ZodString {| invalid_type_error := Some "Please select a customer.";
                required_error := None |}).
Local Abbreviation amount_schema :=
  (ZodNumber true
     [ {| min_value := of_Z 0; min_inclusive := false;
          min_message := "Please enter an amount greater than $0." |} ]
     no_params).
Local Abbreviation status_schema :=
  (ZodEnum ["pending"; "paid"]
     {| invalid_type_error := Some "Please select an invoice status.";
        required_error := None |}).

(** ** [flatten] *)

Lemma messages_at_cons (k : string) (i : Issue) (iss : list Issue) :
  messages_at k (i :: iss)
  = if decide (path i = k) then Zod.message i :: messages_at k iss
    else messages_at k iss.
Proof. unfold messages_at. rewrite filter_cons. by case_decide. Qed.

Lemma messages_at_app (k : string) (l1 l2 : list Issue) :
  messages_at k (l1 ++ l2)%list = (messages_at k l1 ++ messages_at k l2)%list.
Proof. unfold messages_at. by rewrite filter_app, fmap_app. Qed.

Lemma fieldErrors_fold (iss : list Issue) (acc : gmap string (list string)) (k : string) :
  fold_left
    (fun acc sub => <[path sub := (default [] (acc !! path sub) ++ [Zod.message sub])%list]> acc)
    iss acc !! k
  = match messages_at k iss with
    | [] => acc !! k
    | ms => Some (default [] (acc !! k) ++ ms)%list
    end.
Proof.
  revert acc. induction iss as [|i iss IH]; intros acc; [done|].
  cbn [fold_left]. rewrite IH, messages_at_cons.
  case_decide as E.
  - subst k. rewrite lookup_insert_eq. cbn [default].
    destruct (messages_at (path i) iss); [done|].
    unfold id. by rewrite <- app_assoc.
  - by rewrite lookup_insert_ne.
Qed.

(** Under each key, [fieldErrors] has the messages of its issues. *)
Lemma fieldErrors_lookup (iss : list Issue) (k : string) :
  fieldErrors iss !! k = entry (messages_at k iss).
Proof.
  unfold fieldErrors. rewrite fieldErrors_fold, lookup_empty.
  by destruct (messages_at k iss).
Qed.

(** ** The issues of one field *)

Lemma parse_path (t : ZodType) (key : string) (v : value) :
  Forall (fun i => path i = key) (issues (parse t key v)).
Proof.
  destruct t as [p | co checks p | values p]; cbn [parse].
  - destruct v; cbn; by repeat constructor.
  - destruct (if co then Num (ToNumber v) else v) as [| | |n|]; cbn;
      try by repeat constructor.
    destruct (is_nan n); cbn; [by repeat constructor|].
    unfold check_issues. apply Forall_fmap, Forall_true. done.
  - destruct v as [| |s| |]; cbn; try by repeat constructor.
    case_bool_decide; cbn; by repeat constructor.
Qed.

Lemma messages_at_parse (t : ZodType) (key k : string) (v : value) :
  messages_at k (issues (parse t key v))
  = if decide (key = k) then Zod.message <$> issues (parse t key v) else [].
Proof.
  pose proof (parse_path t key v) as P. unfold messages_at.
  induction P as [|i iss Hi P IH]; [by case_decide|].
  rewrite filter_cons, Hi.
  case_decide; cbn [fmap list_fmap]; by rewrite IH.
Qed.

Lemma parse_customerId (v : value) :
  output (parse customerId_schema "customerId" v)
  = (if customerId_ok v then Some v else None)
  /\ Zod.message <$> issues (parse customerId_schema "customerId" v)
     = customerId_messages v.
Proof. by destruct v. Qed.

Lemma parse_amount (v : value) :
  output (parse amount_schema "amount" v)
  = (if is_nan (ToNumber v) then None else Some (Num (ToNumber v)))
  /\ Zod.message <$> issues (parse amount_schema "amount" v) = amount_messages v.
Proof.
  unfold amount_messages. cbn [parse].
  destruct (is_nan (ToNumber v)) eqn:N.
  - cbn. unfold type_issue, getParsedType. by rewrite N.
  - cbn [output issues]. split; [done|].
    unfold check_issues. rewrite filter_cons, filter_nil.
    unfold tooSmall. cbn [min_inclusive min_value].
    destruct (leb (ToNumber v) (of_Z 0)); by case_decide.
Qed.

Lemma parse_status (v : value) :
  output (parse status_schema "status" v)
  = (if status_ok v then Some v else None)
  /\ Zod.message <$> issues (parse status_schema "status" v) = status_messages v.
Proof.
  destruct v as [| |s| |]; try done.
  cbn [parse status_ok status_messages].
  destruct (String.eqb_spec s "pending") as [->|N1]; [done|].
  destruct (String.eqb_spec s "paid") as [->|N2]; [done|].
  rewrite bool_decide_eq_false_2; [done|].
  rewrite !elem_of_cons, elem_of_nil. tauto.
Qed.

(** A field meets its constraint exactly when it raises no message. *)
Lemma customerId_ok_messages (v : value) :
  customerId_ok v = true <-> customerId_messages v = [].
Proof. by destruct v. Qed.

Lemma amount_ok_messages (v : value) :
  amount_ok v = true <-> amount_messages v = [].
Proof.
  unfold amount_ok, amount_messages.
  destruct (is_nan _); [done|]. by destruct (leb _ _).
Qed.

Lemma status_ok_messages (v : value) :
  status_ok v = true <-> status_messages v = [].
Proof.
  destruct v; try done. cbn. by destruct (_ || _).
Qed.

(** ** The schema of the two forms *)

Lemma CreateInvoice_shape :
  CreateInvoice
  = [ ("customerId", customerId_schema); ("amount", amount_schema);
      ("status", status_schema) ].
Proof. reflexivity. Qed.

Lemma get_key_fields (c a s : value) :
  let m : gmap string value := {[ "customerId" := c; "amount" := a; "status" := s ]} in
  get_key m "customerId" = c /\ get_key m "amount" = a /\ get_key m "status" = s.
Proof. by vm_compute. Qed.

Lemma parse_object_fields (c a s : value) :
  parse_object CreateInvoice {[ "customerId" := c; "amount" := a; "status" := s ]}
  = (match output (parse customerId_schema "customerId" c),
           output (parse amount_schema "amount" a),
           output (parse status_schema "status" s) with
     | Some vc, Some va, Some vs =>
         Some {[ "customerId" := vc; "amount" := va; "status" := vs ]}
     | _, _, _ => None
     end,
     (issues (parse customerId_schema "customerId" c)
      ++ issues (parse amount_schema "amount" a)
      ++ issues (parse status_schema "status" s))%list).
Proof.
  rewrite CreateInvoice_shape. cbn [parse_object].
  destruct (get_key_fields c a s) as (-> & -> & ->).
  rewrite app_nil_r.
  by destruct (output (parse customerId_schema "customerId" c)),
     (output (parse amount_schema "amount" a)),
     (output (parse status_schema "status" s)).
Qed.

(** The messages of the three fields, gathered under their keys. *)
Lemma messages_at_fields (c a s : value) (k : string) :
  messages_at k
    (issues (parse customerId_schema "customerId" c)
     ++ issues (parse amount_schema "amount" a)
     ++ issues (parse status_schema "status" s))%list
  = if decide (k = "customerId") then customerId_messages c
    else if decide (k = "amount") then amount_messages a
    else if decide (k = "status") then status_messages s
    else [].
Proof.
  rewrite !messages_at_app, !messages_at_parse.
  rewrite (proj2 (parse_customerId c)), (proj2 (parse_amount a)),
    (proj2 (parse_status s)).
  repeat case_decide; subst; try done; by rewrite ?app_nil_r.
Qed.

(** A valid form parses to its three values, the amount as a number. *)
Lemma safeParse_valid (fd : FormData) :
  valid_form fd = true ->
  safeParse CreateInvoice (fields_of fd)
  = Success {[ "customerId" := get fd "customerId";
               "amount" := Num (ToNumber (get fd "amount"));
               "status" := get fd "status" ]}.
Proof.
  unfold valid_form, fields_of, safeParse.
  intros [[Hc Ha]%andb_prop Hs]%andb_prop.
  rewrite parse_object_fields.
  pose proof (parse_customerId (get fd "customerId")) as [Oc Mc].
  pose proof (parse_amount (get fd "amount")) as [Oa Ma].
  pose proof (parse_status (get fd "status")) as [Os Ms].
  rewrite Hc in Oc. rewrite Hs in Os.
  pose proof Ha as Ha'. unfold amount_ok in Ha'.
  apply andb_prop in Ha' as [N%negb_true_iff _]. rewrite N in Oa.
  rewrite Oc, Oa, Os.
  apply customerId_ok_messages in Hc. apply amount_ok_messages in Ha.
  apply status_ok_messages in Hs.
  rewrite Hc in Mc. rewrite Ha in Ma. rewrite Hs in Ms.
  apply fmap_nil_inv in Mc, Ma, Ms. by rewrite Mc, Ma, Ms.
Qed.

(** The messages of the validator are those of the three fields. *)
Lemma validation_issues_FieldErrorMap (fd : FormData) :
  is_FieldErrorMap fd (fieldErrors (validation_issues fd)).
Proof.
  unfold is_FieldErrorMap, validation_issues, fields_of.
  rewrite parse_object_fields. cbn [snd].
  repeat split; intros; rewrite fieldErrors_lookup, messages_at_fields;
    repeat case_decide; done.
Qed.

(** An invalid form fails validation. *)
Lemma safeParse_invalid (fd : FormData) :
  valid_form fd = false ->
  safeParse CreateInvoice (fields_of fd) = Failure (validation_issues fd).
Proof.
  unfold valid_form, validation_issues, fields_of, safeParse. intros V.
  rewrite parse_object_fields. cbn [snd].
  remember (issues _ ++ issues _ ++ issues _)%list as iss eqn:E.
  destruct iss as [|i iss']; [|by repeat case_match].
  exfalso. symmetry in E.
  apply app_eq_nil in E as [Ec [Ea Es]%app_eq_nil].
  pose proof (parse_customerId (get fd "customerId")) as [_ Mc].
  pose proof (parse_amount (get fd "amount")) as [_ Ma].
  pose proof (parse_status (get fd "status")) as [_ Ms].
  rewrite Ec in Mc. rewrite Ea in Ma. rewrite Es in Ms. cbn in Mc, Ma, Ms.
  symmetry in Mc, Ma, Ms.
  apply customerId_ok_messages in Mc. apply amount_ok_messages in Ma.
  apply status_ok_messages in Ms.
  by rewrite Mc, Ma, Ms in V.
Qed.

End ZodFacts.

(* ===================================================================== *)
(** * How the actions run *)
(* ===================================================================== *)

Section ActionFacts.

Import JsNum Js JsDate Zod Env Actions Contract.

Context `{Backend}.

(** The cents of a parsed amount. *)
Lemma amountInCents_parsed (m : gmap string value) (fd : FormData) :
  get_key m "amount" = Num (ToNumber (get fd "amount")) ->
  times (get_key m "amount") (Num (of_Z 100)) = amountInCents_of fd.
Proof. by intros ->. Qed.

(** On an invalid form both actions return before anything else. *)
Lemma createInvoice_invalid (prev : State) (fd : FormData) (w : World) :
  valid_form fd = false ->
  createInvoice prev fd w
  = (Returned {| errors := Some (fieldErrors (validation_issues fd));
                 message := Some "Missing Fields. Failed to Create Invoice." |}, w).
Proof. intros V. unfold createInvoice. by rewrite (safeParse_invalid fd V). Qed.

Lemma updateInvoice_invalid (id : string) (prev : State) (fd : FormData) (w : World) :
  valid_form fd = false ->
  updateInvoice id prev fd w
  = (Returned {| errors := Some (fieldErrors (validation_issues fd));
                 message := Some "Missing Fields. Failed to Update Invoice." |}, w).
Proof.
  intros V. unfold updateInvoice. change UpdateInvoice with CreateInvoice.
  by rewrite (safeParse_invalid fd V).
Qed.

(** On a valid form [createInvoice] sends one INSERT and goes on by what
    the storage answers. *)
Lemma createInvoice_valid (prev : State) (fd : FormData) (w : World) :
  valid_form fd = true ->
  createInvoice prev fd w
  = match storage_error (insert_of fd w) (invoices w) with
    | Some _ =>
        (Returned {| errors := None;
                     message := Some "Database Error: Failed to Create Invoice." |},
         {| invoices := invoices w; now := now w;
            queries := (queries w ++ [insert_of fd w])%list;
            revalidated := revalidated w |})
    | None =>
        (Thrown (NextRedirect "/dashboard/invoices"),
         {| invoices := run (generated_id (invoices w)) (insert_of fd w) (invoices w);
            now := now w;
            queries := (queries w ++ [insert_of fd w])%list;
            revalidated := (revalidated w ++ ["/dashboard/invoices"])%list |})
    end.
Proof.
  intros V. unfold createInvoice. rewrite (safeParse_valid fd V).
  destruct (get_key_fields (get fd "customerId") (Num (ToNumber (get fd "amount")))
              (get fd "status")) as (-> & Ea & ->).
  rewrite (amountInCents_parsed _ fd Ea).
  unfold bind at 1, new_Date. rewrite split_toISOString.
  fold (insert_of fd w).
  unfold bind, attempt, sql.
  by destruct (storage_error (insert_of fd w) (invoices w)).
Qed.

Lemma updateInvoice_valid (id : string) (prev : State) (fd : FormData) (w : World) :
  valid_form fd = true ->
  updateInvoice id prev fd w
  = match storage_error (update_of id fd) (invoices w) with
    | Some _ =>
        (Returned {| errors := None;
                     message := Some "Database Error: Failed to Update Invoice." |},
         {| invoices := invoices w; now := now w;
            queries := (queries w ++ [update_of id fd])%list;
            revalidated := revalidated w |})
    | None =>
        (Thrown (NextRedirect "/dashboard/invoices"),
         {| invoices := run (generated_id (invoices w)) (update_of id fd) (invoices w);
            now := now w;
            queries := (queries w ++ [update_of id fd])%list;
            revalidated := (revalidated w ++ ["/dashboard/invoices"])%list |})
    end.
Proof.
  intros V. unfold updateInvoice. change UpdateInvoice with CreateInvoice.
  rewrite (safeParse_valid fd V).
  destruct (get_key_fields (get fd "customerId") (Num (ToNumber (get fd "amount")))
              (get fd "status")) as (-> & Ea & ->).
  rewrite (amountInCents_parsed _ fd Ea).
  fold (update_of id fd).
  unfold bind, attempt, sql.
  by destruct (storage_error (update_of id fd) (invoices w)).
Qed.

(** The actions read three entries of the form and nothing else. *)
Lemma fields_of_agree (fd fd' : FormData) :
  get fd' "customerId" = get fd "customerId" ->
  get fd' "amount" = get fd "amount" ->
  get fd' "status" = get fd "status" ->
  fields_of fd' = fields_of fd.
Proof. unfold fields_of. by intros -> -> ->. Qed.

(** ** The UPDATE statement, row by row *)

Lemma update_row_id (c a s : value) (id : string) (r : InvoiceRow) :
  row_id (update_row c a s id r) = row_id r.
Proof. unfold update_row. by destruct (String.eqb _ _). Qed.

Lemma update_row_date (c a s : value) (id : string) (r : InvoiceRow) :
  date (update_row c a s id r) = date r.
Proof. unfold update_row. by destruct (String.eqb _ _). Qed.

Lemma update_row_other (c a s : value) (id : string) (r : InvoiceRow) :
  row_id r <> id -> update_row c a s id r = r.
Proof. unfold update_row. intros N%String.eqb_neq. by rewrite N. Qed.

Lemma update_row_match (c a s : value) (id : string) (r : InvoiceRow) :
  row_id r = id ->
  update_row c a s id r
  = {| row_id := row_id r; customer_id := c; amount := a; status := s;
       date := date r |}.
Proof. unfold update_row. intros E%String.eqb_eq. by rewrite E. Qed.

(** The table after [updateInvoice]: as it was, or updated row by row. *)
Lemma updateInvoice_invoices (id : string) (prev : State) (fd : FormData) (w : World) :
  invoices (updateInvoice id prev fd w).2
  = if valid_form fd
    then match storage_error (update_of id fd) (invoices w) with
         | Some _ => invoices w
         | None =>
             update_row (get fd "customerId") (amountInCents_of fd)
               (get fd "status") id <$> invoices w
         end
    else invoices w.
Proof.
  destruct (valid_form fd) eqn:V.
  - rewrite (updateInvoice_valid id prev fd w V).
    by destruct (storage_error _ _).
  - by rewrite (updateInvoice_invalid id prev fd w V).
Qed.

(** ** Schemas and the [date] key *)

Lemma get_key_insert_ne (m : gmap string value) (k k' : string) (v : value) :
  k <> k' -> get_key (<[k := v]> m) k' = get_key m k'.
Proof. intros N. unfold get_key. by rewrite lookup_insert_ne. Qed.

Lemma get_key_delete_ne (m : gmap string value) (k k' : string) :
  k <> k' -> get_key (delete k m) k' = get_key m k'.
Proof. intros N. unfold get_key. by rewrite lookup_delete_ne. Qed.

(** Parsing looks at the keys of the shape only. *)
Lemma parse_object_ext (shape : Shape) (m m' : gmap string value) :
  (forall k, k ∈ shape.*1 -> get_key m' k = get_key m k) ->
  parse_object shape m' = parse_object shape m.
Proof.
  induction shape as [|[k t] shape IH]; intros E; [done|].
  cbn [parse_object]. rewrite E by (cbn; left).
  rewrite IH; [done|]. intros k' I. apply E. cbn. by right.
Qed.

Lemma CreateInvoice_keys : CreateInvoice.*1 = ["customerId"; "amount"; "status"].
Proof. reflexivity. Qed.

End ActionFacts.

(* ===================================================================== *)
(** * The properties of the specification, on the code *)
(* ===================================================================== *)

Section Properties.

Import JsNum Js JsDate Zod Env Actions AuthConfig Contract Samples.

Context `{Backend}.

(** ** C1 *)

(** C1, evaluated at the amount 19.99: the cents that [createInvoice] and
    [updateInvoice] bind in their statements are the binary64 product
    19.99 * 100, that is 1998.9999999999998 (8791694975696895 * 2^-42):
    below 1999, above 1998, and not an integer. No rounding is applied. *)
Theorem amountInCents_19_99 (id : string) (prev : State) (w : World) :
  let cents := S754_finite false 8791694975696895 (-42) in
  amountInCents_of form_19_99 = Num cents
  /\ JsNum.eqb cents (of_Z 1999) = false
  /\ ltb cents (of_Z 1999) = true
  /\ ltb (of_Z 1998) cents = true
  /\ is_integer cents = false
  /\ queries (createInvoice prev form_19_99 w).2
     = (queries w ++ [INSERT (Str "c1") (Num cents) (Str "paid")
                        (Str (iso_date (now w)))])%list
  /\ queries (updateInvoice id prev form_19_99 w).2
     = (queries w ++ [UPDATE (Str "c1") (Num cents) (Str "paid") id])%list.
Proof.
  intros cents.
  assert (amountInCents_of form_19_99 = Num cents) as E by (by vm_compute).
  assert (valid_form form_19_99 = true) as V by (by vm_compute).
  split; [exact E|].
  do 4 (split; [by vm_compute|]).
  split.
  - rewrite (createInvoice_valid prev _ w V).
    unfold insert_of. rewrite E.
    by destruct (storage_error _ _).
  - rewrite (updateInvoice_valid id prev _ w V).
    unfold update_of. rewrite E.
    by destruct (storage_error _ _).
Qed.

(** ** C2 *)

(** C2, as the code runs: for every id and every world, [deleteInvoice]
    throws the error "Failed to Delete Invoice" before any statement is
    sent; no invoice is removed and no message is returned. *)
Theorem deleteInvoice_always_throws (id : string) (w : World) :
  deleteInvoice id w = (Thrown (Error "Failed to Delete Invoice"), w).
Proof. reflexivity. Qed.

(** ** C3 *)

(** C3, amended: when customerId is not a string (the entry is missing
    or is a file), the coerced amount is not a number greater than 0, or
    status is not "pending" or "paid", [createInvoice] and
    [updateInvoice] return the FieldErrorMap (each failing field with its
    messages, no other key) with their "Missing Fields" message, and
    leave the world as it was: no statement is sent to the storage and no
    row changes. When the three pass (an empty string passes as
    customerId) the statement is sent. *)
Theorem invalid_form_is_rejected_before_storage
    (id : string) (prev : State) (fd : FormData) (w : World) :
  (customerId_ok (get fd "customerId") = false
   \/ amount_ok (get fd "amount") = false
   \/ status_ok (get fd "status") = false ->
   exists errs : gmap string (list string),
     is_FieldErrorMap fd errs
     /\ errs <> ∅
     /\ createInvoice prev fd w
        = (Returned {| errors := Some errs;
                       message := Some "Missing Fields. Failed to Create Invoice." |}, w)
     /\ updateInvoice id prev fd w
        = (Returned {| errors := Some errs;
                       message := Some "Missing Fields. Failed to Update Invoice." |}, w))
  /\ (customerId_ok (get fd "customerId") = true ->
      amount_ok (get fd "amount") = true ->
      status_ok (get fd "status") = true ->
      queries (createInvoice prev fd w).2 = (queries w ++ [insert_of fd w])%list
      /\ queries (updateInvoice id prev fd w).2
         = (queries w ++ [update_of id fd])%list).
Proof.
  split.
  - intros F.
    assert (valid_form fd = false) as V.
    { unfold valid_form. destruct F as [-> | [-> | ->]]; [done| |];
        by rewrite ?andb_false_r. }
    exists (fieldErrors (validation_issues fd)).
    pose proof (validation_issues_FieldErrorMap fd) as M.
    split_and!; [done | | by apply createInvoice_invalid | by apply updateInvoice_invalid].
    destruct M as (Mc & Ma & Ms & _). intros E.
    rewrite E, lookup_empty in Mc, Ma, Ms.
    assert (forall ms, None = entry ms -> ms = []) as N by (by intros []).
    apply N in Mc, Ma, Ms.
    apply customerId_ok_messages in Mc. apply amount_ok_messages in Ma.
    apply status_ok_messages in Ms.
    destruct F as [F | [F | F]]; congruence.
  - intros Oc Oa Os.
    assert (valid_form fd = true) as V by (unfold valid_form; by rewrite Oc, Oa, Os).
    rewrite (createInvoice_valid prev fd w V), (updateInvoice_valid id prev fd w V).
    by destruct (storage_error (insert_of fd w) _), (storage_error (update_of id fd) _).
Qed.

(** ** C4 *)

(** C4: on a path that starts with "/dashboard", [authorized] allows
    exactly the signed-in requests and denies the others; elsewhere a
    signed-in request is redirected to the dashboard home of the same
    origin, and every other request is allowed. It is the Session
    Authorizer of the specification. *)
Theorem authorized_decides (auth : option Session) (nextUrl : URL) :
  decision (authorized auth nextUrl) = authorizer (isLoggedIn auth) nextUrl
  /\ (startsWith (pathname nextUrl) "/dashboard" = true ->
      (decision (authorized auth nextUrl) = Allow <-> isLoggedIn auth = true)
      /\ (decision (authorized auth nextUrl) = Deny <-> isLoggedIn auth = false))
  /\ (startsWith (pathname nextUrl) "/dashboard" = false ->
      isLoggedIn auth = true ->
      decision (authorized auth nextUrl)
      = RedirectTo (origin nextUrl ++ "/dashboard"))
  /\ (startsWith (pathname nextUrl) "/dashboard" = false ->
      isLoggedIn auth = false ->
      decision (authorized auth nextUrl) = Allow).
Proof.
  unfold authorized, authorizer, protected_prefix, dashboard_home.
  destruct (startsWith (pathname nextUrl) "/dashboard"), (isLoggedIn auth);
    cbn; split_and!; try done; intros; try done; split; done.
Qed.

(** ** C5 *)

(** C5: on a valid form, when the storage rejects the INSERT,
    [createInvoice] returns exactly the message "Database Error: Failed to
    Create Invoice." (and no errors); the statement was sent once, the
    table is as it was, no cache was invalidated and there is no
    redirect. *)
Theorem createInvoice_storage_failure
    (prev : State) (fd : FormData) (w : World) (e : error) :
  valid_form fd = true ->
  storage_error (insert_of fd w) (invoices w) = Some e ->
  createInvoice prev fd w
  = (Returned {| errors := None;
                 message := Some "Database Error: Failed to Create Invoice." |},
     {| invoices := invoices w; now := now w;
        queries := (queries w ++ [insert_of fd w])%list;
        revalidated := revalidated w |}).
Proof. intros V F. by rewrite (createInvoice_valid prev fd w V), F. Qed.

(** ** C6 *)

(** C6, amended: the empty amount string is coerced to 0 and fails with
    "Please enter an amount greater than $0."; a string whose coercion
    fails (it gives NaN) is not taken as 0: it fails with the type error
    "Expected number, received nan". In both cases validation fails. *)
Theorem amount_coercion_errors (fd : FormData) (s : string) :
  get fd "amount" = Str s ->
  (s = EmptyString ->
   ToNumber (Str s) = pos_zero
   /\ safeParse CreateInvoice (fields_of fd) = Failure (validation_issues fd)
   /\ fieldErrors (validation_issues fd) !! "amount"
      = Some ["Please enter an amount greater than $0."])
  /\ (is_nan (StringToNumber s) = true ->
      safeParse CreateInvoice (fields_of fd) = Failure (validation_issues fd)
      /\ fieldErrors (validation_issues fd) !! "amount"
         = Some ["Expected number, received nan"]).
Proof.
  intros A.
  destruct (validation_issues_FieldErrorMap fd) as (_ & Ma & _).
  rewrite Ma, A. unfold amount_messages. cbn [ToNumber].
  split.
  - intros T.
    assert (StringToNumber s = pos_zero) as Z by (by rewrite T).
    rewrite Z. split_and!; [done| |done].
    apply safeParse_invalid. unfold valid_form, amount_ok. rewrite A. cbn [ToNumber].
    rewrite Z. cbn. by rewrite andb_false_r.
  - intros N. rewrite N. split; [|done].
    apply safeParse_invalid. unfold valid_form, amount_ok. rewrite A. cbn [ToNumber].
    rewrite N. cbn. by rewrite andb_false_r.
Qed.

(** ** C7 *)

(** C7: when [signIn] throws the credentials error, [authenticate]
    returns "Invalid credentials."; when it throws another [AuthError],
    "Something went wrong."; when it throws anything else, [authenticate]
    throws that same error; when it returns, so does [authenticate], with
    no message. *)
Theorem authenticate_outcomes
    (prev : option string) (fd : FormData) (w w' : World) :
  (signIn "credentials" fd w = (Thrown (AuthError "CredentialsSignin"), w') ->
   authenticate prev fd w = (Returned (Some "Invalid credentials."), w'))
  /\ (forall type,
        type <> "CredentialsSignin" ->
        signIn "credentials" fd w = (Thrown (AuthError type), w') ->
        authenticate prev fd w = (Returned (Some "Something went wrong."), w'))
  /\ (forall e,
        (forall type, e <> AuthError type) ->
        signIn "credentials" fd w = (Thrown e, w') ->
        authenticate prev fd w = (Thrown e, w'))
  /\ (signIn "credentials" fd w = (Returned tt, w') ->
      authenticate prev fd w = (Returned None, w')).
Proof.
  unfold authenticate, bind, attempt. split_and!.
  - by intros ->.
  - intros type N ->. apply String.eqb_neq in N. by rewrite N.
  - intros e N ->. destruct e as [m | type | u]; [done | | done].
    by destruct (N type).
  - by intros ->.
Qed.

(** ** C8 *)

(** C8, amended: [FormSchema] declares date as a required string with no
    check of its format (a missing date is "Required", any string
    passes), but the validators of the forms, [CreateInvoice] and
    [UpdateInvoice], omit date: whatever date the input carries, or
    none, they parse it the same way, and the actions hand them no date
    at all. *)
Theorem date_is_declared_but_omitted (raw : gmap string value) :
  (raw !! "date" = None ->
   messages_at "date" (parse_object FormSchema raw).2 = ["Required"])
  /\ (forall s, raw !! "date" = Some (Str s) ->
                messages_at "date" (parse_object FormSchema raw).2 = [])
  /\ UpdateInvoice = CreateInvoice
  /\ ("date" ∉ CreateInvoice.*1)
  /\ (forall d, safeParse CreateInvoice (<["date" := d]> raw)
                = safeParse CreateInvoice raw)
  /\ safeParse CreateInvoice (delete "date" raw) = safeParse CreateInvoice raw
  /\ (forall fd, fields_of fd !! "date" = None).
Proof.
  split_and!.
  - intros A. unfold FormSchema. cbn [parse_object snd].
    repeat (rewrite messages_at_app). rewrite !messages_at_parse.
    unfold get_key at 5. rewrite A. by vm_compute.
  - intros s A. unfold FormSchema. cbn [parse_object snd].
    repeat (rewrite messages_at_app). rewrite !messages_at_parse.
    unfold get_key at 5. rewrite A. by vm_compute.
  - reflexivity.
  - rewrite CreateInvoice_keys. rewrite !elem_of_cons, elem_of_nil.
    intros [? | [? | [? | []]]]; discriminate.
  - intros d. unfold safeParse. rewrite (parse_object_ext _ raw); [done|].
    rewrite CreateInvoice_keys. intros k I. apply get_key_insert_ne.
    intros <-. revert I. rewrite !elem_of_cons, elem_of_nil.
    intros [? | [? | [? | []]]]; discriminate.
  - unfold safeParse. rewrite (parse_object_ext _ raw); [done|].
    rewrite CreateInvoice_keys. intros k I. apply get_key_delete_ne.
    intros <-. revert I. rewrite !elem_of_cons, elem_of_nil.
    intros [? | [? | [? | []]]]; discriminate.
  - intros fd. unfold fields_of.
    generalize (get fd "customerId"), (get fd "amount"), (get fd "status").
    intros c a s. by vm_compute.
Qed.

(** ** C9 *)

(** C9: whatever the form and the id, [updateInvoice] leaves the id and
    the date of every row as they were, and every row with another id
    wholly as it was; on a valid form that the storage accepts, a row
    with that id differs at most in customer, amount and status, which
    are the submitted ones. *)
Theorem updateInvoice_frame (id : string) (prev : State) (fd : FormData) (w : World) :
  row_id <$> invoices (updateInvoice id prev fd w).2 = row_id <$> invoices w
  /\ date <$> invoices (updateInvoice id prev fd w).2 = date <$> invoices w
  /\ (forall i r,
        invoices w !! i = Some r -> row_id r <> id ->
        invoices (updateInvoice id prev fd w).2 !! i = Some r)
  /\ (valid_form fd = true ->
      storage_error (update_of id fd) (invoices w) = None ->
      forall i r,
        invoices w !! i = Some r -> row_id r = id ->
        invoices (updateInvoice id prev fd w).2 !! i
        = Some {| row_id := row_id r; customer_id := get fd "customerId";
                  amount := amountInCents_of fd; Env.status := get fd "status";
                  date := date r |}).
Proof.
  rewrite updateInvoice_invoices.
  split_and!.
  - destruct (valid_form fd); [|done]. destruct (storage_error _ _); [done|].
    rewrite <- list_fmap_compose. apply list_fmap_ext.
    intros ? r _. apply update_row_id.
  - destruct (valid_form fd); [|done]. destruct (storage_error _ _); [done|].
    rewrite <- list_fmap_compose. apply list_fmap_ext.
    intros ? r _. apply update_row_date.
  - intros i r L N.
    destruct (valid_form fd); [|done]. destruct (storage_error _ _); [done|].
    rewrite list_lookup_fmap, L. cbn. by rewrite update_row_other.
  - intros -> -> i r L E.
    rewrite list_lookup_fmap, L. cbn. by rewrite update_row_match.
Qed.

(** ** C10 *)

(** C10, amended: forms with the same customerId, amount and status run
    the same way, whatever else they hold (a date entry among it); and on
    a valid form that the storage accepts, with the clock in the years
    0000 to 9999, the inserted row carries as its date the UTC calendar
    date of the clock, written YYYY-MM-DD: a year, a month and a day of
    that month, which lies as many days after 1970-01-01 as the clock
    counts whole days (of 86400000 ms) since the epoch. *)
Theorem createInvoice_date (prev : State) (fd : FormData) (w : World) :
  (forall fd' : FormData,
     get fd' "customerId" = get fd "customerId" ->
     get fd' "amount" = get fd "amount" ->
     get fd' "status" = get fd "status" ->
     createInvoice prev fd' w = createInvoice prev fd w)
  /\ (valid_form fd = true ->
      storage_error (insert_of fd w) (invoices w) = None ->
      (year_0000 <= now w <= year_9999_end)%Z ->
      exists y m d : Z,
        (0 <= y <= 9999 /\ 1 <= m <= 12 /\ 1 <= d <= days_in_month y m)%Z
        /\ days_from_civil y m d = (now w / 86400000)%Z
        /\ is_iso_calendar_date (yyyy_mm_dd y m d) = true
        /\ invoices (createInvoice prev fd w).2
           = (invoices w
              ++ [ {| row_id := generated_id (invoices w);
                      customer_id := get fd "customerId";
                      amount := amountInCents_of fd;
                      Env.status := get fd "status";
                      date := Str (yyyy_mm_dd y m d) |} ])%list).
Proof.
  split.
  - intros fd' Ec Ea Es. unfold createInvoice.
    by rewrite (fields_of_agree fd fd' Ec Ea Es).
  - intros V S R.
    pose proof (YearFromTime_four_digits _ R) as Y.
    pose proof (MonthFromTime_range (now w)) as Mo.
    pose proof (DateFromTime_in_month (now w)) as D.
    exists (YearFromTime (now w)), (MonthFromTime (now w) + 1)%Z,
      (DateFromTime (now w)).
    rewrite <- (iso_date_yyyy_mm_dd _ R).
    split_and!; try lia.
    + apply days_from_civil_of_time.
    + by apply iso_date_form.
    + by rewrite (createInvoice_valid prev fd w V), S.
Qed.

End Properties.

(* ===================================================================== *)
(** * The properties at sample inputs *)
(* ===================================================================== *)

Section Instances.

Import JsNum Js JsDate Zod Env Actions AuthConfig Contract Samples.

(** A form with the amount "abc" is rejected by both actions, and the
    world stays as it was; a form with an empty customerId is sent. *)
Lemma invalid_form_is_rejected_before_storage_witness :
  (exists errs : gmap string (list string),
     is_FieldErrorMap form_abc_amount errs
     /\ errs <> ∅
     /\ createInvoice (H := reliable) prev0 form_abc_amount world0
        = (Returned {| errors := Some errs;
                       message := Some "Missing Fields. Failed to Create Invoice." |},
           world0)
     /\ updateInvoice (H := reliable) "inv-1" prev0 form_abc_amount world0
        = (Returned {| errors := Some errs;
                       message := Some "Missing Fields. Failed to Update Invoice." |},
           world0))
  /\ (queries (createInvoice (H := reliable) prev0 form_empty_customer world0).2
      = (queries world0 ++ [insert_of form_empty_customer world0])%list
      /\ queries (updateInvoice (H := reliable) "inv-1" prev0 form_empty_customer world0).2
         = (queries world0 ++ [update_of "inv-1" form_empty_customer])%list).
Proof.
  split.
  - apply (proj1 (invalid_form_is_rejected_before_storage (H := reliable)
                    "inv-1" prev0 form_abc_amount world0)).
    right; left. vm_compute. reflexivity.
  - apply (proj2 (invalid_form_is_rejected_before_storage (H := reliable)
                    "inv-1" prev0 form_empty_customer world0)).
    + reflexivity.
    + vm_compute. reflexivity.
    + reflexivity.
Defined.

(** Signed in on the login page: redirected to the dashboard; signed out
    on an invoices page: denied; signed in there: allowed; signed out on
    the login page: allowed. *)
Lemma authorized_decides_witness :
  decision (authorized signed_in login_url) = RedirectTo "https://example.com/dashboard"
  /\ decision (authorized signed_out invoices_url) = Deny
  /\ decision (authorized signed_in invoices_url) = Allow
  /\ decision (authorized signed_out login_url) = Allow.
Proof.
  split; [|split; [|split]].
  - apply (proj1 (proj2 (proj2 (authorized_decides signed_in login_url))));
      reflexivity.
  - apply (proj2 (proj1 (proj2 (authorized_decides signed_out invoices_url))
                    eq_refl)).
    reflexivity.
  - apply (proj1 (proj1 (proj2 (authorized_decides signed_in invoices_url))
                    eq_refl)).
    reflexivity.
  - apply (proj2 (proj2 (proj2 (authorized_decides signed_out login_url))));
      reflexivity.
Defined.

(** With a storage that refuses, a valid form gets the database error. *)
Lemma createInvoice_storage_failure_witness :
  createInvoice (H := broken) prev0 form_19_99 world0
  = (Returned {| errors := None;
                 message := Some "Database Error: Failed to Create Invoice." |},
     {| invoices := invoices world0; now := now world0;
        queries := (queries world0 ++ [insert_of form_19_99 world0])%list;
        revalidated := revalidated world0 |}).
Proof.
  apply (createInvoice_storage_failure (H := broken) prev0 form_19_99 world0
           (Error "connection refused")).
  - vm_compute. reflexivity.
  - reflexivity.
Defined.

(** The empty amount and the amount "abc". *)
Lemma amount_coercion_errors_witness :
  (ToNumber (Str EmptyString) = pos_zero
   /\ safeParse CreateInvoice (fields_of form_empty_amount)
      = Failure (validation_issues form_empty_amount)
   /\ fieldErrors (validation_issues form_empty_amount) !! "amount"
      = Some ["Please enter an amount greater than $0."])
  /\ (safeParse CreateInvoice (fields_of form_abc_amount)
      = Failure (validation_issues form_abc_amount)
      /\ fieldErrors (validation_issues form_abc_amount) !! "amount"
         = Some ["Expected number, received nan"]).
Proof.
  split.
  - apply (proj1 (amount_coercion_errors form_empty_amount EmptyString eq_refl)).
    reflexivity.
  - apply (proj2 (amount_coercion_errors form_abc_amount "abc" eq_refl)).
    vm_compute. reflexivity.
Defined.

(** A wrong password, another failure of the provider, an outage, and a
    provider that signs in. *)
Lemma authenticate_outcomes_witness :
  authenticate (H := wrong_password) None credentials world0
  = (Returned (Some "Invalid credentials."), world0)
  /\ authenticate (H := callback_failure) None credentials world0
     = (Returned (Some "Something went wrong."), world0)
  /\ authenticate (H := broken) None credentials world0
     = (Thrown (Error "fetch failed"), world0)
  /\ authenticate (H := reliable) None credentials world0
     = (Returned None, world0).
Proof.
  split; [|split; [|split]].
  - apply (proj1 (authenticate_outcomes (H := wrong_password)
                    None credentials world0 world0)).
    reflexivity.
  - apply (proj1 (proj2 (authenticate_outcomes (H := callback_failure)
                           None credentials world0 world0))
             "CallbackRouteError").
    + discriminate.
    + reflexivity.
  - apply (proj1 (proj2 (proj2 (authenticate_outcomes (H := broken)
                                  None credentials world0 world0)))
             (Error "fetch failed")).
    + discriminate.
    + reflexivity.
  - apply (proj2 (proj2 (proj2 (authenticate_outcomes (H := reliable)
                                  None credentials world0 world0)))).
    reflexivity.
Defined.

(** The whole schema on the fields of a form (no date) and on the same
    with a date that is no date. *)
Lemma date_is_declared_but_omitted_witness :
  messages_at "date" (parse_object FormSchema (fields_of form_19_99)).2 = ["Required"]
  /\ messages_at "date"
       (parse_object FormSchema (<["date" := Str "tomorrow"]> (fields_of form_19_99))).2
     = [].
Proof.
  split.
  - apply (proj1 (date_is_declared_but_omitted (fields_of form_19_99))).
    vm_compute. reflexivity.
  - apply (proj1 (proj2 (date_is_declared_but_omitted
                           (<["date" := Str "tomorrow"]> (fields_of form_19_99))))
             "tomorrow").
    vm_compute. reflexivity.
Defined.

(** Updating the second sample row: the first row stays, the second
    keeps its id and its date. *)
Lemma updateInvoice_frame_witness :
  invoices (updateInvoice (H := reliable) "inv-1" prev0 form_19_99 world0).2 !! 0
  = Some row1
  /\ invoices (updateInvoice (H := reliable) "inv-1" prev0 form_19_99 world0).2 !! 1
     = Some {| row_id := "inv-1"; customer_id := Str "c1";
               amount := amountInCents_of form_19_99; Env.status := Str "paid";
               date := Str "2023-11-14" |}.
Proof.
  split.
  - apply (proj1 (proj2 (proj2 (updateInvoice_frame (H := reliable)
                                  "inv-1" prev0 form_19_99 world0)))
             0 row1).
    + reflexivity.
    + discriminate.
  - apply (proj2 (proj2 (proj2 (updateInvoice_frame (H := reliable)
                                  "inv-1" prev0 form_19_99 world0)))
             ltac:(vm_compute; reflexivity) eq_refl 1 row2).
    + reflexivity.
    + reflexivity.
Defined.

(** A form without date, at 2024-01-01T12:34:56.789Z; and the same form
    with a date entry. *)
Lemma createInvoice_date_witness :
  createInvoice (H := reliable) prev0 form_with_date world0
  = createInvoice (H := reliable) prev0 form_19_99 world0
  /\ exists y m d : Z,
       (0 <= y <= 9999 /\ 1 <= m <= 12 /\ 1 <= d <= days_in_month y m)%Z
       /\ days_from_civil y m d = (now world0 / 86400000)%Z
       /\ is_iso_calendar_date (yyyy_mm_dd y m d) = true
       /\ invoices (createInvoice (H := reliable) prev0 form_19_99 world0).2
          = (invoices world0
             ++ [ {| row_id := "inv-2"; customer_id := Str "c1";
                     amount := amountInCents_of form_19_99;
                     Env.status := Str "paid";
                     date := Str (yyyy_mm_dd y m d) |} ])%list.
Proof.
  split.
  - apply (proj1 (createInvoice_date (H := reliable) prev0 form_19_99 world0));
      reflexivity.
  - apply (proj2 (createInvoice_date (H := reliable) prev0 form_19_99 world0)).
    + vm_compute. reflexivity.
    + reflexivity.
    + unfold year_0000, year_9999_end. cbn. lia.
Defined.

(** ** Where the code departs from the specification *)

(** C6 as stated fails on "abc": its coercion fails, and the validator
    answers with the type error, not with the greater-than-zero one. *)
Lemma amount_abc_is_a_type_error :
  get form_abc_amount "amount" = Str "abc"
  /\ is_nan (StringToNumber "abc") = true
  /\ fieldErrors (validation_issues form_abc_amount) !! "amount"
     = Some ["Expected number, received nan"]
  /\ fieldErrors (validation_issues form_abc_amount) !! "amount"
     <> Some ["Please enter an amount greater than $0."]
  /\ createInvoice (H := reliable) prev0 form_abc_amount world0
     = (Returned {| errors := Some {[ "amount" := ["Expected number, received nan"] ]};
                    message := Some "Missing Fields. Failed to Create Invoice." |},
        world0).
Proof.
  assert (fieldErrors (validation_issues form_abc_amount) !! "amount"
          = Some ["Expected number, received nan"]) as E by (by vm_compute).
  split_and!; [done | by vm_compute | done | by rewrite E | by vm_compute].
Qed.

(** C8 as stated fails on a form without date: the validator accepts it
    and [createInvoice] inserts the invoice. *)
Lemma form_without_date_is_accepted :
  get form_19_99 "date" = Null
  /\ fields_of form_19_99 !! "date" = None
  /\ safeParse CreateInvoice (fields_of form_19_99)
     = Success {[ "customerId" := Str "c1";
                  "amount" := Num (StringToNumber "19.99");
                  "status" := Str "paid" ]}
  /\ (createInvoice (H := reliable) prev0 form_19_99 world0).1
     = Thrown (NextRedirect "/dashboard/invoices")
  /\ length (invoices (createInvoice (H := reliable) prev0 form_19_99 world0).2)
     = 3.
Proof. split_and!; by vm_compute. Qed.

(** C10 as stated fails when the clock is past the year 9999: at
    10000-01-01T00:00:00.000Z the inserted date is "+010000-01-01", which
    has not the form YYYY-MM-DD. *)
Lemma year_10000_date_is_not_yyyy_mm_dd :
  valid_form form_19_99 = true
  /\ (createInvoice (H := reliable) prev0 form_19_99 world_year_10000).1
     = Thrown (NextRedirect "/dashboard/invoices")
  /\ date <$> invoices (createInvoice (H := reliable) prev0 form_19_99 world_year_10000).2
     = [Str "+010000-01-01"]
  /\ is_iso_calendar_date "+010000-01-01" = false.
Proof. split_and!; by vm_compute. Qed.

(** C3 as stated fails on an empty customerId: it is no non-empty
    string, yet the validator accepts it and [createInvoice] sends the
    INSERT and stores the row. *)
Lemma empty_customerId_is_sent_to_storage :
  customerId_nonempty (get form_empty_customer "customerId") = false
  /\ (createInvoice (H := reliable) prev0 form_empty_customer world0).1
     = Thrown (NextRedirect "/dashboard/invoices")
  /\ queries (createInvoice (H := reliable) prev0 form_empty_customer world0).2
     = [INSERT (Str EmptyString) (Num (of_Z 500)) (Str "paid") (Str "2024-01-01")]
  /\ invoices (createInvoice (H := reliable) prev0 form_empty_customer world0).2 !! 2
     = Some {| row_id := "inv-2"; customer_id := Str EmptyString;
               amount := Num (of_Z 500); Env.status := Str "paid";
               date := Str "2024-01-01" |}.
Proof. split_and!; by vm_compute. Qed.

End Instances.

(* ===================================================================== *)
(** * More facts: forms, rows, dates *)
(* ===================================================================== *)

Section MoreFacts.

Import JsNum Js JsDate Zod Env Actions AuthConfig Contract.

(** An entry that is not in the form reads as [null]. *)
Lemma get_absent (fd : FormData) (name : string) :
  name ∉ fd.*1 -> get fd name = Null.
Proof.
  induction fd as [|[k e] fd IH]; cbn [get fmap list_fmap fst]; [done|].
  intros N. apply not_elem_of_cons in N as [N1 N2].
  destruct (String.eqb_spec k name) as [->|]; [done|]. by apply IH.
Qed.

Lemma prefix_append (p s : string) : String.prefix p (p ++ s) = true.
Proof.
  induction p as [|c p IH].
  - by destruct s.
  - rewrite append_String. cbn [String.prefix].
    by destruct (ascii_dec c c).
Qed.

Lemma update_row_twice (c a s : value) (id : string) (r : InvoiceRow) :
  update_row c a s id (update_row c a s id r) = update_row c a s id r.
Proof.
  unfold update_row at 2 3.
  destruct (String.eqb (row_id r) id) eqn:E; unfold update_row; cbn; by rewrite E.
Qed.

(** Rows with another id are not touched by an update. *)
Lemma update_rows_none (c a s : value) (id : string) (rows : list InvoiceRow) :
  Forall (fun r => row_id r <> id) rows ->
  update_row c a s id <$> rows = rows.
Proof.
  induction 1 as [|r rows N _ IH]; [done|].
  cbn [fmap list_fmap]. rewrite update_row_other by done. f_equal. apply IH.
Qed.

(** ** The stored date and the day of the clock *)

Lemma iso_date_same_day (t t' : Z) : Day t = Day t' -> iso_date t = iso_date t'.
Proof.
  intros E.
  assert (YearFromTime t = YearFromTime t') as EY by (unfold YearFromTime; by rewrite E).
  assert (DayWithinYear t = DayWithinYear t') as ED by (unfold DayWithinYear; by rewrite E, EY).
  assert (InLeapYear t = InLeapYear t') as EL by (unfold InLeapYear; by rewrite EY).
  assert (MonthFromTime t = MonthFromTime t') as EM by (unfold MonthFromTime; by rewrite ED, EL).
  assert (DateFromTime t = DateFromTime t') as EDt by (unfold DateFromTime; by rewrite ED, EL, EM).
  unfold iso_date. by rewrite EY, EM, EDt.
Qed.

Lemma digit_inj (a b : Z) :
  (0 <= a <= 9)%Z -> (0 <= b <= 9)%Z -> digit a = digit b -> a = b.
Proof.
  intros Ra Rb.
  assert (a = 0 \/ a = 1 \/ a = 2 \/ a = 3 \/ a = 4 \/ a = 5 \/ a = 6 \/ a = 7
          \/ a = 8 \/ a = 9)%Z as Ca by lia.
  assert (b = 0 \/ b = 1 \/ b = 2 \/ b = 3 \/ b = 4 \/ b = 5 \/ b = 6 \/ b = 7
          \/ b = 8 \/ b = 9)%Z as Cb by lia.
  repeat (destruct Ca as [-> | Ca]); try subst a;
    repeat (destruct Cb as [-> | Cb]); try subst b; by cbn.
Qed.

Lemma decimal2_inj (a b : Z) :
  (0 <= a < 100)%Z -> (0 <= b < 100)%Z -> decimal2 a = decimal2 b -> a = b.
Proof.
  intros Ra Rb E. unfold decimal2 in E. injection E as E1 E2.
  apply digit_inj in E1; [|Z.div_mod_to_equations; lia..].
  apply digit_inj in E2; [|Z.div_mod_to_equations; lia..].
  Z.div_mod_to_equations; lia.
Qed.

Lemma yyyy_mm_dd_chars (y m d : Z) :
  yyyy_mm_dd y m d
  = String (digit (y / 100 / 10)) (String (digit ((y / 100) mod 10))
      (String (digit (y mod 100 / 10)) (String (digit ((y mod 100) mod 10))
        (String "-" (String (digit (m / 10)) (String (digit (m mod 10))
          (String "-" (String (digit (d / 10)) (String (digit (d mod 10))
            EmptyString))))))))).
Proof. reflexivity. Qed.

Lemma yyyy_mm_dd_inj (y m d y' m' d' : Z) :
  (0 <= y < 10000)%Z -> (0 <= m < 100)%Z -> (0 <= d < 100)%Z ->
  (0 <= y' < 10000)%Z -> (0 <= m' < 100)%Z -> (0 <= d' < 100)%Z ->
  yyyy_mm_dd y m d = yyyy_mm_dd y' m' d' -> y = y' /\ m = m' /\ d = d'.
Proof.
  intros Ry Rm Rd Ry' Rm' Rd' E.
  rewrite !yyyy_mm_dd_chars in E.
  injection E as E1 E2 E3 E4 E5 E6 E7 E8.
  apply digit_inj in E1, E2, E3, E4, E5, E6, E7, E8;
    Z.div_mod_to_equations; lia.
Qed.

(** In the years 0000 to 9999, equal dates are dates of the same day. *)
Lemma iso_date_inj (t t' : Z) :
  (year_0000 <= t <= year_9999_end)%Z -> (year_0000 <= t' <= year_9999_end)%Z ->
  iso_date t = iso_date t' -> Day t = Day t'.
Proof.
  intros R R' E.
  rewrite (iso_date_yyyy_mm_dd _ R), (iso_date_yyyy_mm_dd _ R') in E.
  pose proof (YearFromTime_four_digits _ R). pose proof (YearFromTime_four_digits _ R').
  pose proof (MonthFromTime_range t). pose proof (MonthFromTime_range t').
  pose proof (DateFromTime_range t). pose proof (DateFromTime_range t').
  apply yyyy_mm_dd_inj in E as (EY & EM & ED); [|lia..].
  rewrite <- (MakeDay_of_time t), <- (MakeDay_of_time t').
  rewrite EY, ED. by replace (MonthFromTime t) with (MonthFromTime t') by lia.
Qed.

End MoreFacts.

(* ===================================================================== *)
(** * Further properties of the actions and of the authorizer *)
(* ===================================================================== *)

Section FurtherProperties.

Import JsNum Js JsDate Zod Env Actions AuthConfig Contract.

Context `{Backend}.

(** ** The storage fails, or accepts *)

(** On a valid form, when the storage rejects the UPDATE, [updateInvoice]
    returns exactly the message "Database Error: Failed to Update
    Invoice."; the table is as it was, no cache was invalidated and there
    is no redirect. *)
Theorem updateInvoice_storage_failure
    (id : string) (prev : State) (fd : FormData) (w : World) (e : error) :
  valid_form fd = true ->
  storage_error (update_of id fd) (invoices w) = Some e ->
  updateInvoice id prev fd w
  = (Returned {| errors := None;
                 message := Some "Database Error: Failed to Update Invoice." |},
     {| invoices := invoices w; now := now w;
        queries := (queries w ++ [update_of id fd])%list;
        revalidated := revalidated w |}).
Proof. intros V F. by rewrite (updateInvoice_valid id prev fd w V), F. Qed.

(** On a valid form that the storage accepts, [createInvoice] ends in the
    redirect to "/dashboard/invoices", after one INSERT and one
    invalidation of that path; the table is the old one followed by one
    row, with the id the storage gave it, the submitted customer and
    status, and the amount times 100. *)
Theorem createInvoice_success (prev : State) (fd : FormData) (w : World) :
  valid_form fd = true ->
  storage_error (insert_of fd w) (invoices w) = None ->
  (createInvoice prev fd w).1 = Thrown (NextRedirect "/dashboard/invoices")
  /\ revalidated (createInvoice prev fd w).2
     = (revalidated w ++ ["/dashboard/invoices"])%list
  /\ queries (createInvoice prev fd w).2 = (queries w ++ [insert_of fd w])%list
  /\ exists row,
       invoices (createInvoice prev fd w).2 = (invoices w ++ [row])%list
       /\ row_id row = generated_id (invoices w)
       /\ customer_id row = get fd "customerId"
       /\ Env.status row = get fd "status"
       /\ amount row = Num (mul (ToNumber (get fd "amount")) (of_Z 100)).
Proof.
  intros V S. rewrite (createInvoice_valid prev fd w V), S. cbn [fst snd].
  split_and!; try done. eexists. split; [reflexivity|]. done.
Qed.

(** On a valid form that the storage accepts, [updateInvoice] ends in
    the redirect, after one UPDATE and one invalidation; the table keeps
    its length and the order of its ids. *)
Theorem updateInvoice_success
    (id : string) (prev : State) (fd : FormData) (w : World) :
  valid_form fd = true ->
  storage_error (update_of id fd) (invoices w) = None ->
  (updateInvoice id prev fd w).1 = Thrown (NextRedirect "/dashboard/invoices")
  /\ revalidated (updateInvoice id prev fd w).2
     = (revalidated w ++ ["/dashboard/invoices"])%list
  /\ queries (updateInvoice id prev fd w).2 = (queries w ++ [update_of id fd])%list
  /\ length (invoices (updateInvoice id prev fd w).2) = length (invoices w).
Proof.
  intros V S. rewrite (updateInvoice_valid id prev fd w V), S. cbn [fst snd].
  split_and!; try done. cbn. by rewrite length_fmap.
Qed.

(** An update of an id that no row has changes no row, and still ends as
    an update that found its row: with the invalidation and the
    redirect. *)
Theorem updateInvoice_unknown_id_is_silent
    (id : string) (prev : State) (fd : FormData) (w : World) :
  valid_form fd = true ->
  storage_error (update_of id fd) (invoices w) = None ->
  Forall (fun r => row_id r <> id) (invoices w) ->
  updateInvoice id prev fd w
  = (Thrown (NextRedirect "/dashboard/invoices"),
     {| invoices := invoices w; now := now w;
        queries := (queries w ++ [update_of id fd])%list;
        revalidated := (revalidated w ++ ["/dashboard/invoices"])%list |}).
Proof.
  intros V S N. rewrite (updateInvoice_valid id prev fd w V), S.
  cbn [run update_of]. by rewrite update_rows_none.
Qed.

(** ** What the actions never do *)

(** Whatever the form, the storage and the world: [createInvoice] either
    returns a state with a message, the table and the cache untouched, or
    ends in the redirect with one row more; no error of the storage
    escapes it, it sends at most one statement, and the clock is not
    touched. *)
Theorem createInvoice_outcomes (prev : State) (fd : FormData) (w : World) :
  now (createInvoice prev fd w).2 = now w
  /\ (queries (createInvoice prev fd w).2 = queries w
      \/ queries (createInvoice prev fd w).2 = (queries w ++ [insert_of fd w])%list)
  /\ ((exists st msg,
         (createInvoice prev fd w).1 = Returned st
         /\ message st = Some msg
         /\ invoices (createInvoice prev fd w).2 = invoices w
         /\ revalidated (createInvoice prev fd w).2 = revalidated w)
      \/ ((createInvoice prev fd w).1 = Thrown (NextRedirect "/dashboard/invoices")
          /\ (exists row, invoices (createInvoice prev fd w).2
                          = (invoices w ++ [row])%list)
          /\ revalidated (createInvoice prev fd w).2
             = (revalidated w ++ ["/dashboard/invoices"])%list)).
Proof.
  destruct (valid_form fd) eqn:V.
  - rewrite (createInvoice_valid prev fd w V).
    destruct (storage_error _ _); cbn [fst snd now queries invoices revalidated].
    + split_and!; [done | by right | left; by eexists _, _].
    + split_and!; [done | by right | right; split_and!; [done | by eexists | done]].
  - rewrite (createInvoice_invalid prev fd w V). cbn [fst snd].
    split_and!; [done | by left | left; by eexists _, _].
Qed.

(** The same for [updateInvoice]; and whatever happens the table keeps
    its length. *)
Theorem updateInvoice_outcomes
    (id : string) (prev : State) (fd : FormData) (w : World) :
  now (updateInvoice id prev fd w).2 = now w
  /\ length (invoices (updateInvoice id prev fd w).2) = length (invoices w)
  /\ (queries (updateInvoice id prev fd w).2 = queries w
      \/ queries (updateInvoice id prev fd w).2 = (queries w ++ [update_of id fd])%list)
  /\ ((exists st msg,
         (updateInvoice id prev fd w).1 = Returned st
         /\ message st = Some msg
         /\ invoices (updateInvoice id prev fd w).2 = invoices w
         /\ revalidated (updateInvoice id prev fd w).2 = revalidated w)
      \/ ((updateInvoice id prev fd w).1 = Thrown (NextRedirect "/dashboard/invoices")
          /\ revalidated (updateInvoice id prev fd w).2
             = (revalidated w ++ ["/dashboard/invoices"])%list)).
Proof.
  destruct (valid_form fd) eqn:V.
  - rewrite (updateInvoice_valid id prev fd w V).
    destruct (storage_error _ _); cbn [fst snd now queries invoices revalidated].
    + split_and!; [done | done | by right | left; by eexists _, _].
    + split_and!; [done | cbn; by rewrite length_fmap | by right | by right].
  - rewrite (updateInvoice_invalid id prev fd w V). cbn [fst snd].
    split_and!; [done | done | by left | left; by eexists _, _].
Qed.

End FurtherProperties.

Section FurtherValidation.

Import JsNum Js JsDate Zod Env Actions AuthConfig Contract.

Context `{Backend}.

(** ** What the validator lets through, and what it answers *)

(** Whatever object it is given, when the validator of the forms
    succeeds its data are typed: exactly the keys customerId, amount and
    status; customerId the string that was given, status "pending" or
    "paid" as given, amount the number the given value coerces to, which
    is not NaN and is greater than 0. Other keys of the object are
    dropped. *)
Theorem safeParse_success_is_typed (raw data : gmap string value) :
  safeParse CreateInvoice raw = Success data ->
  exists (c st : string) (n : number),
    raw !! "customerId" = Some (Str c)
    /\ raw !! "status" = Some (Str st)
    /\ (st = "pending" \/ st = "paid")
    /\ n = ToNumber (default Undefined (raw !! "amount"))
    /\ is_nan n = false
    /\ leb n (of_Z 0) = false
    /\ data = {[ "customerId" := Str c; "amount" := Num n; "status" := Str st ]}.
Proof.
  intros E. unfold safeParse in E.
  rewrite (parse_object_ext _
             {[ "customerId" := get_key raw "customerId";
                "amount" := get_key raw "amount";
                "status" := get_key raw "status" ]} raw) in E.
  2: { rewrite CreateInvoice_keys. intros k I.
       destruct (get_key_fields (get_key raw "customerId") (get_key raw "amount")
                   (get_key raw "status")) as (Gc & Ga & Gs).
       revert I. rewrite !elem_of_cons, elem_of_nil.
       intros [-> | [-> | [-> | []]]]; by rewrite ?Gc, ?Ga, ?Gs. }
  rewrite parse_object_fields in E.
  destruct (parse_customerId (get_key raw "customerId")) as [Oc Mc].
  destruct (parse_amount (get_key raw "amount")) as [Oa Ma].
  destruct (parse_status (get_key raw "status")) as [Os Ms].
  rewrite Oc, Oa, Os in E.
  destruct (customerId_ok (get_key raw "customerId")) eqn:Kc; [|done].
  destruct (is_nan (ToNumber (get_key raw "amount"))) eqn:Kn; [done|].
  destruct (status_ok (get_key raw "status")) eqn:Ks; [|done].
  destruct (issues _ ++ issues _ ++ issues _)%list eqn:I; [|done].
  apply app_eq_nil in I as [_ [Ia _]%app_eq_nil].
  rewrite Ia in Ma. cbn in Ma. unfold amount_messages in Ma. rewrite Kn in Ma.
  destruct (leb (ToNumber (get_key raw "amount")) (of_Z 0)) eqn:Kl; [done|].
  unfold get_key in *.
  destruct (raw !! "customerId") as [[| |c| |]|]; try done.
  destruct (raw !! "status") as [[| |st| |]|]; try done.
  exists c, st, (ToNumber (default Undefined (raw !! "amount"))).
  split_and!; try done.
  - cbn in Ks. apply orb_prop in Ks as [K|K]; apply String.eqb_eq in K; auto.
  - by injection E as <-.
Qed.

(** A form with no customerId entry, no amount entry or no status entry
    gets, under that key, "Please select a customer.", "Please enter an
    amount greater than $0." (a missing amount is coerced to 0) or
    "Please select an invoice status."; and nothing is sent to the
    storage. *)
Theorem missing_entries_get_their_messages
    (prev : State) (fd : FormData) (w : World) :
  ("customerId" ∉ fd.*1 \/ "amount" ∉ fd.*1 \/ "status" ∉ fd.*1) ->
  exists errs : gmap string (list string),
    createInvoice prev fd w
    = (Returned {| errors := Some errs;
                   message := Some "Missing Fields. Failed to Create Invoice." |}, w)
    /\ ("customerId" ∉ fd.*1 ->
        errs !! "customerId" = Some ["Please select a customer."])
    /\ ("amount" ∉ fd.*1 ->
        errs !! "amount" = Some ["Please enter an amount greater than $0."])
    /\ ("status" ∉ fd.*1 ->
        errs !! "status" = Some ["Please select an invoice status."]).
Proof.
  intros A. exists (fieldErrors (validation_issues fd)).
  destruct (validation_issues_FieldErrorMap fd) as (Mc & Ma & Ms & _).
  split_and!.
  - apply createInvoice_invalid. unfold valid_form.
    destruct A as [A | [A | A]]; rewrite (get_absent _ _ A);
      by rewrite ?andb_false_r.
  - intros A'. by rewrite Mc, (get_absent _ _ A').
  - intros A'. by rewrite Ma, (get_absent _ _ A').
  - intros A'. by rewrite Ms, (get_absent _ _ A').
Qed.

(** A status that is a string other than "pending" and "paid" (the test
    minds the case) is refused with the message of the enumeration, which
    quotes it, not with "Please select an invoice status."; nothing is
    sent to the storage. *)
Theorem unknown_status_gets_enum_message
    (prev : State) (fd : FormData) (w : World) (s : string) :
  get fd "status" = Str s ->
  s <> "pending" -> s <> "paid" ->
  exists errs : gmap string (list string),
    createInvoice prev fd w
    = (Returned {| errors := Some errs;
                   message := Some "Missing Fields. Failed to Create Invoice." |}, w)
    /\ errs !! "status"
       = Some ["Invalid enum value. Expected 'pending' | 'paid', received '"
               ++ s ++ "'"].
Proof.
  intros G N1%String.eqb_neq N2%String.eqb_neq.
  exists (fieldErrors (validation_issues fd)).
  destruct (validation_issues_FieldErrorMap fd) as (_ & _ & Ms & _).
  split.
  - apply createInvoice_invalid. unfold valid_form. rewrite G. cbn.
    by rewrite N1, N2, andb_false_r.
  - rewrite Ms, G. cbn. by rewrite N1, N2.
Qed.

(** An amount that coerces to +Infinity passes the validator: with the
    other fields passing, the INSERT is sent with Infinity as the
    amount in cents. *)
Theorem infinite_amount_is_accepted (prev : State) (fd : FormData) (w : World) :
  customerId_ok (get fd "customerId") = true ->
  status_ok (get fd "status") = true ->
  ToNumber (get fd "amount") = S754_infinity false ->
  queries (createInvoice prev fd w).2
  = (queries w
     ++ [INSERT (get fd "customerId") (Num (S754_infinity false))
           (get fd "status") (Str (iso_date (now w)))])%list.
Proof.
  intros Kc Ks I.
  assert (valid_form fd = true) as V.
  { unfold valid_form, amount_ok. by rewrite Kc, Ks, I. }
  rewrite (createInvoice_valid prev fd w V).
  unfold insert_of, amountInCents_of. rewrite I.
  by destruct (storage_error _ _).
Qed.

End FurtherValidation.

Section FurtherComposition.

Import JsNum Js JsDate Zod Env Actions AuthConfig Contract.

Context `{Backend}.

(** ** The date of creation *)

(** The date [createInvoice] stores depends on the clock through its UTC
    day only: two creations on the same day (of 86400000 ms since the
    epoch) store the same date, and in the years 0000 to 9999 two
    creations with the same date are of the same day. *)
Theorem stored_date_is_of_the_day (prev : State) (fd : FormData) (w w' : World) :
  valid_form fd = true ->
  storage_error (insert_of fd w) (invoices w) = None ->
  storage_error (insert_of fd w') (invoices w') = None ->
  exists r r',
    last (invoices (createInvoice prev fd w).2) = Some r
    /\ last (invoices (createInvoice prev fd w').2) = Some r'
    /\ ((now w / 86400000 = now w' / 86400000)%Z -> date r = date r')
    /\ ((year_0000 <= now w <= year_9999_end)%Z ->
        (year_0000 <= now w' <= year_9999_end)%Z ->
        date r = date r' -> (now w / 86400000 = now w' / 86400000)%Z).
Proof.
  intros V S S'.
  rewrite (createInvoice_valid prev fd w V), S.
  rewrite (createInvoice_valid prev fd w' V), S'.
  cbn [snd invoices run insert_of]. rewrite !last_snoc.
  eexists _, _. split_and!; [done | done | |]; cbn [date].
  - intros E. f_equal. by apply iso_date_same_day.
  - intros R R' [= E]. by apply (iso_date_inj _ _ R R').
Qed.

(** ** One action after another *)

(** An invoice that is created and then updated under the id the storage
    gave it (an id no older row has) keeps the date of its creation and
    carries the customer, amount and status of the update; the older rows
    are as they were. *)
Theorem create_then_update (prev : State) (fd fd' : FormData) (w : World) :
  valid_form fd = true ->
  valid_form fd' = true ->
  storage_error (insert_of fd w) (invoices w) = None ->
  storage_error (update_of (generated_id (invoices w)) fd')
    (invoices (createInvoice prev fd w).2) = None ->
  Forall (fun r => row_id r <> generated_id (invoices w)) (invoices w) ->
  exists created,
    invoices (createInvoice prev fd w).2 = (invoices w ++ [created])%list
    /\ invoices (updateInvoice (generated_id (invoices w)) prev fd'
                   (createInvoice prev fd w).2).2
       = (invoices w
          ++ [ {| row_id := generated_id (invoices w);
                  customer_id := get fd' "customerId";
                  amount := Num (mul (ToNumber (get fd' "amount")) (of_Z 100));
                  Env.status := get fd' "status";
                  date := date created |} ])%list.
Proof.
  intros V V' S S' N.
  rewrite (updateInvoice_valid _ prev fd' _ V'), S'.
  revert S'. rewrite (createInvoice_valid prev fd w V), S. intros _.
  cbn [snd invoices run insert_of update_of].
  eexists. split; [reflexivity|].
  rewrite fmap_app, update_rows_none by done.
  cbn [fmap list_fmap]. by rewrite update_row_match.
Qed.

(** The same update twice leaves the table as the first left it. *)
Theorem updateInvoice_twice
    (id : string) (prev : State) (fd : FormData) (w : World) :
  valid_form fd = true ->
  storage_error (update_of id fd) (invoices w) = None ->
  storage_error (update_of id fd) (invoices (updateInvoice id prev fd w).2) = None ->
  invoices (updateInvoice id prev fd (updateInvoice id prev fd w).2).2
  = invoices (updateInvoice id prev fd w).2.
Proof.
  intros V S S'.
  rewrite (updateInvoice_valid id prev fd _ V), S'.
  revert S'. rewrite (updateInvoice_valid id prev fd w V), S. intros _.
  cbn [snd invoices run update_of].
  rewrite <- list_fmap_compose. apply list_fmap_ext.
  intros ? r _. apply update_row_twice.
Qed.

(** ** The authorizer *)

(** The protected prefix is matched as text: every path that continues
    "/dashboard", by a slash or by anything else, is open to the
    signed-in and closed to the others. *)
Theorem authorized_prefix_is_textual
    (auth : option Session) (nextUrl : URL) (rest : string) :
  pathname nextUrl = "/dashboard" ++ rest ->
  authorized auth nextUrl = Bool (isLoggedIn auth).
Proof.
  intros E. unfold authorized, startsWith. rewrite E, prefix_append.
  by destruct (isLoggedIn auth).
Qed.

(** The redirect of a signed-in request goes, with status 302, to the
    path "/dashboard" of the origin of the request, without its query or
    fragment; and a request to that URL is allowed, so the redirect is
    followed once. *)
Theorem authorized_redirect_lands (auth : option Session) (nextUrl : URL) :
  isLoggedIn auth = true ->
  startsWith (pathname nextUrl) "/dashboard" = false ->
  authorized auth nextUrl
  = Resp {| AuthConfig.status := 302; location := origin nextUrl ++ "/dashboard" |}
  /\ authorized auth
       {| origin := origin nextUrl; pathname := "/dashboard";
          search := EmptyString; hash := EmptyString |}
     = Bool true.
Proof.
  intros L P. unfold authorized. rewrite L, P. cbn [pathname].
  split; [|done].
  unfold Response_redirect, new_URL, href. cbn [origin pathname search hash].
  by rewrite !append_empty.
Qed.

End FurtherComposition.

(* ===================================================================== *)
(** * The further properties at sample inputs *)
(* ===================================================================== *)

Section FurtherInstances.

Import JsNum Js JsDate Zod Env Actions AuthConfig Contract Samples.

Lemma updateInvoice_storage_failure_witness :
  updateInvoice (H := broken) "inv-1" prev0 form_19_99 world0
  = (Returned {| errors := None;
                 message := Some "Database Error: Failed to Update Invoice." |},
     {| invoices := invoices world0; now := now world0;
        queries := (queries world0 ++ [update_of "inv-1" form_19_99])%list;
        revalidated := revalidated world0 |}).
Proof.
  apply (updateInvoice_storage_failure (H := broken) "inv-1" prev0 form_19_99
           world0 (Error "connection refused")).
  - vm_compute. reflexivity.
  - reflexivity.
Defined.

Lemma createInvoice_success_witness :
  (createInvoice (H := reliable) prev0 form_other world0).1
  = Thrown (NextRedirect "/dashboard/invoices")
  /\ revalidated (createInvoice (H := reliable) prev0 form_other world0).2
     = (revalidated world0 ++ ["/dashboard/invoices"])%list
  /\ queries (createInvoice (H := reliable) prev0 form_other world0).2
     = (queries world0 ++ [insert_of form_other world0])%list
  /\ exists row,
       invoices (createInvoice (H := reliable) prev0 form_other world0).2
       = (invoices world0 ++ [row])%list
       /\ row_id row = "inv-2"
       /\ customer_id row = Str "c9"
       /\ Env.status row = Str "pending"
       /\ amount row = Num (mul (ToNumber (Str "30")) (of_Z 100)).
Proof.
  apply (createInvoice_success (H := reliable) prev0 form_other world0).
  - vm_compute. reflexivity.
  - reflexivity.
Defined.

Lemma updateInvoice_success_witness :
  (updateInvoice (H := reliable) "inv-0" prev0 form_other world0).1
  = Thrown (NextRedirect "/dashboard/invoices")
  /\ revalidated (updateInvoice (H := reliable) "inv-0" prev0 form_other world0).2
     = (revalidated world0 ++ ["/dashboard/invoices"])%list
  /\ queries (updateInvoice (H := reliable) "inv-0" prev0 form_other world0).2
     = (queries world0 ++ [update_of "inv-0" form_other])%list
  /\ length (invoices (updateInvoice (H := reliable) "inv-0" prev0 form_other world0).2)
     = length (invoices world0).
Proof.
  apply (updateInvoice_success (H := reliable) "inv-0" prev0 form_other world0).
  - vm_compute. reflexivity.
  - reflexivity.
Defined.

Lemma updateInvoice_unknown_id_is_silent_witness :
  updateInvoice (H := reliable) "inv-9" prev0 form_other world0
  = (Thrown (NextRedirect "/dashboard/invoices"),
     {| invoices := invoices world0; now := now world0;
        queries := (queries world0 ++ [update_of "inv-9" form_other])%list;
        revalidated := (revalidated world0 ++ ["/dashboard/invoices"])%list |}).
Proof.
  apply (updateInvoice_unknown_id_is_silent (H := reliable) "inv-9" prev0
           form_other world0).
  - vm_compute. reflexivity.
  - reflexivity.
  - repeat constructor; discriminate.
Defined.

(** An object with a key too many: the key is dropped. *)
Lemma safeParse_success_is_typed_witness :
  exists (c st : string) (n : number),
    (<["note" := Str "urgent"]> (fields_of form_other) : gmap string value)
      !! "customerId" = Some (Str c)
    /\ (<["note" := Str "urgent"]> (fields_of form_other) : gmap string value)
         !! "status" = Some (Str st)
    /\ (st = "pending" \/ st = "paid")
    /\ n = ToNumber (default Undefined
                       ((<["note" := Str "urgent"]> (fields_of form_other)
                          : gmap string value) !! "amount"))
    /\ is_nan n = false
    /\ leb n (of_Z 0) = false
    /\ ({[ "customerId" := Str "c9"; "amount" := Num (of_Z 30);
           "status" := Str "pending" ]} : gmap string value)
       = {[ "customerId" := Str c; "amount" := Num n; "status" := Str st ]}.
Proof.
  apply (safeParse_success_is_typed
           (<["note" := Str "urgent"]> (fields_of form_other))).
  vm_compute. reflexivity.
Defined.

Lemma missing_entries_get_their_messages_witness :
  exists errs : gmap string (list string),
    createInvoice (H := reliable) prev0 form_nothing world0
    = (Returned {| errors := Some errs;
                   message := Some "Missing Fields. Failed to Create Invoice." |},
       world0)
    /\ ("customerId" ∉ form_nothing.*1 ->
        errs !! "customerId" = Some ["Please select a customer."])
    /\ ("amount" ∉ form_nothing.*1 ->
        errs !! "amount" = Some ["Please enter an amount greater than $0."])
    /\ ("status" ∉ form_nothing.*1 ->
        errs !! "status" = Some ["Please select an invoice status."]).
Proof.
  apply (missing_entries_get_their_messages (H := reliable) prev0 form_nothing world0).
  left. cbn. apply not_elem_of_nil.
Defined.

Lemma unknown_status_gets_enum_message_witness :
  exists errs : gmap string (list string),
    createInvoice (H := reliable) prev0 form_unknown_status world0
    = (Returned {| errors := Some errs;
                   message := Some "Missing Fields. Failed to Create Invoice." |},
       world0)
    /\ errs !! "status"
       = Some ["Invalid enum value. Expected 'pending' | 'paid', received '"
               ++ "Paid" ++ "'"].
Proof.
  apply (unknown_status_gets_enum_message (H := reliable) prev0
           form_unknown_status world0 "Paid").
  - reflexivity.
  - discriminate.
  - discriminate.
Defined.

Lemma infinite_amount_is_accepted_witness :
  queries (createInvoice (H := reliable) prev0 form_infinite_amount world0).2
  = (queries world0
     ++ [INSERT (get form_infinite_amount "customerId") (Num (S754_infinity false))
           (get form_infinite_amount "status") (Str (iso_date (now world0)))])%list.
Proof.
  apply (infinite_amount_is_accepted (H := reliable) prev0 form_infinite_amount world0).
  - reflexivity.
  - reflexivity.
  - vm_compute. reflexivity.
Defined.

(** At noon and at midnight of 2024-01-01. *)
Lemma stored_date_is_of_the_day_witness :
  exists r r',
    last (invoices (createInvoice (H := reliable) prev0 form_other world0).2) = Some r
    /\ last (invoices (createInvoice (H := reliable) prev0 form_other world_midnight).2)
       = Some r'
    /\ ((now world0 / 86400000 = now world_midnight / 86400000)%Z -> date r = date r')
    /\ ((year_0000 <= now world0 <= year_9999_end)%Z ->
        (year_0000 <= now world_midnight <= year_9999_end)%Z ->
        date r = date r' ->
        (now world0 / 86400000 = now world_midnight / 86400000)%Z).
Proof.
  apply (stored_date_is_of_the_day (H := reliable) prev0 form_other world0
           world_midnight).
  - vm_compute. reflexivity.
  - reflexivity.
  - reflexivity.
Defined.

Lemma create_then_update_witness :
  exists created,
    invoices (createInvoice (H := reliable) prev0 form_19_99 world0).2
    = (invoices world0 ++ [created])%list
    /\ invoices (updateInvoice (H := reliable) "inv-2" prev0 form_other
                   (createInvoice (H := reliable) prev0 form_19_99 world0).2).2
       = (invoices world0
          ++ [ {| row_id := "inv-2"; customer_id := Str "c9";
                  amount := Num (mul (ToNumber (Str "30")) (of_Z 100));
                  Env.status := Str "pending";
                  date := date created |} ])%list.
Proof.
  apply (create_then_update (H := reliable) prev0 form_19_99 form_other world0).
  - vm_compute. reflexivity.
  - vm_compute. reflexivity.
  - reflexivity.
  - reflexivity.
  - repeat constructor; discriminate.
Defined.

Lemma updateInvoice_twice_witness :
  invoices (updateInvoice (H := reliable) "inv-1" prev0 form_other
              (updateInvoice (H := reliable) "inv-1" prev0 form_other world0).2).2
  = invoices (updateInvoice (H := reliable) "inv-1" prev0 form_other world0).2.
Proof.
  apply (updateInvoice_twice (H := reliable) "inv-1" prev0 form_other world0).
  - vm_compute. reflexivity.
  - reflexivity.
  - reflexivity.
Defined.

(** "/dashboard-reports" is behind the gate too. *)
Lemma authorized_prefix_is_textual_witness :
  authorized signed_out reports_url = Bool false
  /\ authorized signed_in invoices_url = Bool true.
Proof.
  split.
  - apply (authorized_prefix_is_textual signed_out reports_url "-reports").
    reflexivity.
  - apply (authorized_prefix_is_textual signed_in invoices_url "/invoices").
    reflexivity.
Defined.

Lemma authorized_redirect_lands_witness :
  authorized signed_in login_url
  = Resp {| AuthConfig.status := 302; location := "https://example.com" ++ "/dashboard" |}
  /\ authorized signed_in
       {| origin := "https://example.com"; pathname := "/dashboard";
          search := EmptyString; hash := EmptyString |}
     = Bool true.
Proof.
  apply (authorized_redirect_lands signed_in login_url); reflexivity.
Defined.

End FurtherInstances.
